(** * pgnet: the graph built by [get], its layer blocks and the export routine

    The Python module [pgnet.py] is a graph-construction script: every
    function creates variables and operations in the framework's default graph
    and hands back symbolic tensors.  The embedding below keeps that shape.

    - A symbolic tensor is a term of the inductive type [tensor]; its static
      shape is computed by [get_shape], following the shape rules the
      framework applies when an operation is created.
    - What lies outside the graph and the sources (the checkpoint on disk,
      the file system, the freezing utility) enters [export_model] as the
      outcome of the call that depends on it.
    - The default graph (variable scope, variables, collections, summaries)
      and the interpreter's observable effects (standard output and error,
      files, framework calls) are threaded through a state-and-exception
      monad [M].
    - [utils.py] and [pgnet.py] are transcribed function by function in the
      modules [utils] and [pgnet]. *)

From Stdlib Require Import String Ascii List NArith ZArith Bool Lia DecimalString.
Import ListNotations.
Open Scope string_scope.
Open Scope list_scope.
Open Scope N_scope.

(** ** Python values that are not tensors *)

(** A float literal of the source, kept as written: [FloatLit m e] is
    [m * 10^e].  No floating-point arithmetic is performed on it. *)
Inductive float_lit := FloatLit (mantissa : Z) (exp10 : Z).

Inductive pyval :=
| PyNone
| PyInt (z : Z).

Inductive exn :=
| ValueError (msg : string)
| IndexError (msg : string)
| OtherError (msg : string).

(** ** The framework's data *)

Module tf.

Definition dim := option N.          (* [None] is an unknown dimension *)
Definition shape := list dim.

Inductive padding := VALID | SAME.
Inductive dtype := float32 | bool_ | int64.

Inductive initializer :=
| xavier_initializer_conv2d
| constant_initializer (v : float_lit)
| zeros_initializer
| ones_initializer.

Record variable := Var
  { v_name : string;            (* full name, scope included *)
    v_shape : list N;
    v_init : initializer;
    v_trainable : bool }.

Inductive tensor :=
| Placeholder (dt : dtype) (shp : shape) (name : string)
| ConstBool (b : bool)
| VarRead (v : variable)
| Pad (x : tensor) (paddings : list (Z * Z)) (name : string)
| Conv2d (x : tensor) (filter : tensor) (strides : list N) (pad : padding)
| Add (x : tensor) (y : tensor)
| Relu (x : tensor) (name : string)
| BatchNorm (x : tensor) (is_training : tensor)
            (beta gamma : option variable)
            (moving_mean moving_variance : variable)
            (decay epsilon : float_lit)
| Dropout (x : tensor) (keep_prob : tensor) (name : string)
| Reshape (x : tensor) (shp : list N)
| Squeeze (x : tensor) (axes : list N)
| Cast (x : tensor) (dt : dtype)
| SparseSoftmaxCrossEntropyWithLogits (logits labels : tensor) (name : string)
| ReduceMean (x : tensor) (name : string).

Inductive summary :=
| HistogramSummary (tag : string) (v : variable)
| ImageSummary (tag : string) (t : tensor) (max_images : N)
| ScalarSummary (tag : string) (t : tensor).

Inductive optimizer := AdamOptimizer (learning_rate : float_lit).

(** The update of one variable by the optimizer, along the gradient of
    [loss]. *)
Inductive update :=
| ApplyGradient (opt : optimizer) (loss : tensor) (var : variable).

(** The operation returned by [Optimizer.minimize], as
    [Optimizer.apply_gradients] builds it: with a [global_step], the
    operation that adds [delta] to that variable once the updates have run;
    without one, the group of the updates. *)
Inductive train_op :=
| AssignAdd (counter : variable) (delta : Z) (after : list update)
| Group (updates : list update).

(** *** Static shapes *)

Definition dim_compatible (a b : dim) : bool :=
  match a, b with
  | Some x, Some y => x =? y
  | _, _ => true
  end.

(** Output extent of a convolution along one axis.  VALID keeps the windows
    that fit: [(in - k + s) / s], and is refused when the filter is larger
    than the input; SAME gives [ceil (in / s)]. *)
Definition conv_out_dim (p : padding) (i : dim) (k s : N) : option dim :=
  if s =? 0 then None else
  match i with
  | None => Some None
  | Some n =>
      match p with
      | VALID => if n <? k then None else Some (Some ((n - k + s) / s))
      | SAME => Some (Some ((n + s - 1) / s))
      end
  end.

Definition conv2d_shape (xs fs : shape) (strides : list N) (p : padding)
  : option shape :=
  match xs, fs, strides with
  | [b; h; w; d], [Some kh; Some kw; Some kd; Some kn], [1; sr; sc; 1] =>
      if dim_compatible d (Some kd) then
        match conv_out_dim p h kh sr, conv_out_dim p w kw sc with
        | Some oh, Some ow => Some [b; oh; ow; Some kn]
        | _, _ => None
        end
      else None
  | _, _, _ => None
  end.

Definition pad_dim (d : dim) (p : Z * Z) : option dim :=
  if ((fst p <? 0) || (snd p <? 0))%Z then None
  else Some (option_map (fun n => n + Z.to_N (fst p) + Z.to_N (snd p)) d).

Fixpoint pad_shape (s : shape) (paddings : list (Z * Z)) : option shape :=
  match s, paddings with
  | [], [] => Some []
  | d :: s', p :: ps =>
      match pad_dim d p, pad_shape s' ps with
      | Some d', Some r => Some (d' :: r)
      | _, _ => None
      end
  | _, _ => None
  end.

(** [tf.add] of a rank-1 operand broadcast along the last axis, which is the
    only use the module makes of it. *)
Definition add_shape (xs ys : shape) : option shape :=
  match ys with
  | [c] => match rev xs with
           | l :: _ => if dim_compatible l c then Some xs else None
           | [] => None
           end
  | _ => None
  end.

Definition num_elements (s : list N) : N := fold_right N.mul 1 s.

Fixpoint known (s : shape) : option (list N) :=
  match s with
  | [] => Some []
  | Some n :: r => option_map (cons n) (known r)
  | None :: _ => None
  end.

Definition reshape_shape (xs : shape) (target : list N) : option shape :=
  match known xs with
  | Some ks => if num_elements ks =? num_elements target
               then Some (map Some target) else None
  | None => Some (map Some target)
  end.

Fixpoint squeeze_from (i : N) (s : shape) (axes : list N) : option shape :=
  match s with
  | [] => Some []
  | d :: r =>
      if existsb (N.eqb i) axes then
        if dim_compatible d (Some 1) then squeeze_from (i + 1) r axes else None
      else option_map (cons d) (squeeze_from (i + 1) r axes)
  end.

Definition squeeze_shape (s : shape) (axes : list N) : option shape :=
  if forallb (fun a => a <? N.of_nat (length s)) axes
  then squeeze_from 0 s axes else None.

Definition xent_shape (ls ys : shape) : option shape :=
  match ls, ys with
  | [b; _], [b'] => if dim_compatible b b' then Some [match b with Some _ => b | None => b' end] else None
  | _, _ => None
  end.

(** The static shape of a tensor; [None] when the framework would refuse to
    create the operation. *)
Fixpoint get_shape (t : tensor) : option shape :=
  match t with
  | Placeholder _ shp _ => Some shp
  | ConstBool _ => Some []
  | VarRead v => Some (map Some (v_shape v))
  | Pad x paddings _ =>
      match get_shape x with
      | Some s => pad_shape s paddings
      | None => None
      end
  | Conv2d x f strides p =>
      match get_shape x, get_shape f with
      | Some xs, Some fs => conv2d_shape xs fs strides p
      | _, _ => None
      end
  | Add x y =>
      match get_shape x, get_shape y with
      | Some xs, Some ys => add_shape xs ys
      | _, _ => None
      end
  | Relu x _ => get_shape x
  | BatchNorm x _ _ _ _ _ _ _ => get_shape x
  | Dropout x _ _ => get_shape x
  | Reshape x shp =>
      match get_shape x with
      | Some xs => reshape_shape xs shp
      | None => None
      end
  | Squeeze x axes =>
      match get_shape x with
      | Some xs => squeeze_shape xs axes
      | None => None
      end
  | Cast x _ => get_shape x
  | SparseSoftmaxCrossEntropyWithLogits l y _ =>
      match get_shape l, get_shape y with
      | Some ls, Some ys => xent_shape ls ys
      | _, _ => None
      end
  | ReduceMean _ _ => Some []
  end.

End tf.
Export tf.

(** ** Interpreter state and the builder monad *)

(** The default graph: what [tf.get_variable], [tf.placeholder], the summary
    operations and the collections read and write.  [g_variables] is the
    collection of all variables, in creation order.  The framework's own
    bookkeeping collections that the module never reads are left out. *)
Record graph := Graph
  { g_scope : list string;                        (* outermost scope first *)
    g_placeholders : list tensor;
    g_variables : list variable;
    g_collections : list (string * list variable);
    g_summaries : list summary }.

Definition empty_graph : graph := Graph [] [] [] [] [].

Inductive output :=
| OutTensor (t : tensor)        (* [print] of a tensor *)
| OutText (s : string).

(** Framework calls whose effect lies outside the graph. *)
Inductive call :=
| SaverCreate (var_list : list variable)
| SessionOpen (allow_soft_placement : bool)
| SessionClose
| SaverRestore (save_path : string)
| WriteGraph (g : graph) (logdir name : string) (as_text : bool)
| FreezeGraph (input_graph input_saver : string) (input_binary : bool)
              (input_checkpoint output_node_names restore_op_name
               filename_tensor_name output_graph : string)
              (clear_devices : bool) (initializer_nodes : string).

Record state := State
  { default_graph : graph;
    stdout : list output;
    stderr : list string;
    files : list string;          (* the paths that exist *)
    calls : list call }.

Inductive result (A : Type) :=
| Ok (a : A) (s : state)
| Raise (e : exn) (s : state).
Arguments Ok {A} a s.
Arguments Raise {A} e s.

Definition M (A : Type) := state -> result A.

Definition ret {A} (a : A) : M A := fun s => Ok a s.

Definition bind {A B} (m : M A) (f : A -> M B) : M B :=
  fun s => match m s with
           | Ok a s' => f a s'
           | Raise e s' => Raise e s'
           end.

Definition raise {A} (e : exn) : M A := fun s => Raise e s.

Notation "x <- m ;; k" := (bind m (fun x => k))
  (at level 61, m at next level, right associativity).
Notation "m ;;; k" := (bind m (fun _ => k))
  (at level 61, right associativity).


Definition returned {A} (r : result A) : option A :=
  match r with Ok a _ => Some a | Raise _ _ => None end.

Definition set_graph (g : graph) (s : state) : state :=
  State g (stdout s) (stderr s) (files s) (calls s).

Definition modify_graph (f : graph -> graph) : M unit :=
  fun s => Ok tt (set_graph (f (default_graph s)) s).

Definition get_graph : M graph := fun s => Ok (default_graph s) s.

Definition print (o : output) : M unit :=
  fun s => Ok tt (State (default_graph s) (stdout s ++ [o]) (stderr s)
                        (files s) (calls s)).

Definition print_stderr (msg : string) : M unit :=
  fun s => Ok tt (State (default_graph s) (stdout s) (stderr s ++ [msg])
                        (files s) (calls s)).

Definition record_call (c : call) : M unit :=
  fun s => Ok tt (State (default_graph s) (stdout s) (stderr s)
                        (files s) (calls s ++ [c])).

(** The set of existing paths after [path] has been written. *)
Definition add_file (path : string) (fs : list string) : list string :=
  if existsb (String.eqb path) fs then fs else fs ++ [path].

Definition create_file (path : string) : M unit :=
  fun s => Ok tt (State (default_graph s) (stdout s) (stderr s)
                        (add_file path (files s)) (calls s)).

Definition os_path_exists (path : string) : M bool :=
  fun s => Ok (existsb (String.eqb path) (files s)) s.

(** [l[i]] on a Python list. *)
Definition py_index {A} (l : list A) (i : nat) : M A :=
  match nth_error l i with
  | Some a => ret a
  | None => raise (IndexError "list index out of range")
  end.

(** [n / d] rounded to the nearest integer, ties to the even one. *)
Definition round_div (n d : N) : N :=
  let q := n / d in
  let r := n mod d in
  if (d <? 2 * r) || ((2 * r =? d) && N.odd q) then q + 1 else q.

(** [int(a / b)] for integers [0 <= a] and [0 < b].  Python's [a / b] is the
    quotient correctly rounded to a double (53-bit mantissa, ties to even),
    and [int] truncates it.  With both operands below 2^53 the rounding never
    reaches the next integer and the result is the integer quotient.  Above,
    the quotient is rounded at its binary exponent [e]; [None] stands for the
    [OverflowError] of a quotient too large for a double. *)
Definition float_int_div (a b : N) : option N :=
  if (a <? 2 ^ 53) && (b <? 2 ^ 53) then Some (a / b)
  else if a <? b then
    (* below 1: the quotient rounds to 1.0 from 1 - 2^-54 on *)
    Some (if b * (2 ^ 54 - 1) <=? a * 2 ^ 54 then 1 else 0)
  else
    let e0 := N.log2 a - N.log2 b in
    let e := if a <? b * 2 ^ e0 then e0 - 1 else e0 in
    if e <=? 52 then Some (round_div (a * 2 ^ (52 - e)) b / 2 ^ (52 - e))
    else
      let m := round_div a (b * 2 ^ (e - 52)) in
      if 2 ^ 1024 <=? m * 2 ^ (e - 52) then None else Some (m * 2 ^ (e - 52)).

(** [int(a / b)]; [None] as an operand is a type error and a zero divisor a
    division error. *)
Definition py_int_truediv (a b : dim) : M N :=
  match a, b with
  | Some x, Some y =>
      if y =? 0 then raise (OtherError "ZeroDivisionError")
      else match float_int_div x y with
           | Some q => ret q
           | None => raise (OtherError "OverflowError")
           end
  | _, _ => raise (OtherError "TypeError")
  end.

(** [str(n)] *)
Definition str (n : N) : string := NilEmpty.string_of_uint (N.to_uint n).

(** ** Framework operations on the default graph *)

Definition scope_name (sc : list string) (name : string) : string :=
  String.concat "/" (sc ++ [name]).

Definition scoped (g : graph) (name : string) : string :=
  scope_name (g_scope g) name.

Definition set_scope (sc : list string) (g : graph) : graph :=
  Graph sc (g_placeholders g) (g_variables g) (g_collections g) (g_summaries g).

(** [with tf.variable_scope(name): body]; the scope is left on every exit.
    The variable scope is the path under which [tf.get_variable] names its
    variables.  The name scope that comes with it, which prefixes operation
    names, is the same path as long as the framework does not have to rename
    it because the name is taken in the graph. *)
Definition tf_variable_scope {A} (name : string) (body : M A) : M A :=
  fun s =>
    let outer := g_scope (default_graph s) in
    let leave s' := set_graph (set_scope outer (default_graph s')) s' in
    match body (set_graph (set_scope (outer ++ [name]) (default_graph s)) s) with
    | Ok a s' => Ok a (leave s')
    | Raise e s' => Raise e (leave s')
    end.

(** Creating an operation runs shape inference. *)
Definition create_op (t : tensor) : M tensor :=
  match get_shape t with
  | Some _ => ret t
  | None => raise (ValueError "incompatible shapes")
  end.

(** The name an operation is created with: the name asked for under the
    current scope.  The framework appends a counter to a name that is already
    taken in the graph; in a new graph none of the names of this module is.
    Names are therefore stated for new graphs only. *)
Definition op_name (name : string) : M string :=
  g <- get_graph ;; ret (scoped g name).

Definition add_variable (v : variable) (g : graph) : graph :=
  Graph (g_scope g) (g_placeholders g) (g_variables g ++ [v])
        (g_collections g) (g_summaries g).

Fixpoint collection_add (name : string) (v : variable)
         (cs : list (string * list variable)) : list (string * list variable) :=
  match cs with
  | [] => [(name, [v])]
  | (n, vs) :: r => if String.eqb n name then (n, vs ++ [v]) :: r
                    else (n, vs) :: collection_add name v r
  end.

Definition add_to_collection (name : string) (v : variable) : M unit :=
  modify_graph (fun g =>
    Graph (g_scope g) (g_placeholders g) (g_variables g)
          (collection_add name v (g_collections g)) (g_summaries g)).

Fixpoint add_to_collections (names : list string) (v : variable) : M unit :=
  match names with
  | [] => ret tt
  | n :: r => add_to_collection n v ;;; add_to_collections r v
  end.

Fixpoint get_collection (name : string) (cs : list (string * list variable))
  : list variable :=
  match cs with
  | [] => []
  | (n, vs) :: r => if String.eqb n name then vs else get_collection name r
  end.

Definition tf_get_collection_ref (name : string) : M (list variable) :=
  g <- get_graph ;; ret (get_collection name (g_collections g)).

Definition tf_all_variables : M (list variable) :=
  g <- get_graph ;; ret (g_variables g).

Definition tf_trainable_variables : M (list variable) :=
  g <- get_graph ;; ret (filter v_trainable (g_variables g)).

(** The fan-in and fan-out an initializer reads off a shape: the last two
    entries, each multiplied by the entries before them. *)
Definition fans (ks : list N) : N * N :=
  match rev ks with
  | [] => (1, 1)
  | [n] => (n, n)
  | fan_out :: fan_in :: r => (fan_in * num_elements r, fan_out * num_elements r)
  end.

(** [xavier_initializer_conv2d] is called with the shape when the variable is
    created and divides by the mean of the fan-in and the fan-out. *)
Definition initializer_divides_by_zero (init : initializer) (ks : list N) : bool :=
  match init with
  | xavier_initializer_conv2d => fst (fans ks) + snd (fans ks) =? 0
  | _ => false
  end.

(** [tf.get_variable] outside a reusing scope: the name must be new and the
    shape fully defined; then the initializer is called. *)
Definition tf_get_variable (name : string) (shp : shape) (init : initializer)
           (trainable : bool) : M variable :=
  g <- get_graph ;;
  let full := scoped g name in
  if existsb (String.eqb full) (map v_name (g_variables g))
  then raise (ValueError "Variable already exists")
  else
    match known shp with
    | None => raise (ValueError "Shape of a new variable must be fully defined")
    | Some ks =>
        if initializer_divides_by_zero init ks
        then raise (OtherError "ZeroDivisionError")
        else
          let v := Var full ks init trainable in
          modify_graph (add_variable v) ;;; ret v
    end.

(** The variable's tensor name, [w.name]. *)
Definition var_tensor_name (v : variable) : string :=
  String.append (v_name v) ":0".

Definition add_summary (sm : summary) : M summary :=
  modify_graph (fun g =>
    Graph (g_scope g) (g_placeholders g) (g_variables g) (g_collections g)
          (g_summaries g ++ [sm])) ;;;
  ret sm.

(** [tf.image_summary]: [max_images] must be at least 1. *)
Definition tf_image_summary (tag : string) (t : tensor) (max_images : N) : M summary :=
  if max_images <? 1
  then raise (ValueError "max_images must be at least 1")
  else add_summary (ImageSummary tag t max_images).

Definition tf_placeholder (dt : dtype) (shp : shape) (name : string) : M tensor :=
  n <- op_name name ;;
  let t := Placeholder dt shp n in
  modify_graph (fun g =>
    Graph (g_scope g) (g_placeholders g ++ [t]) (g_variables g)
          (g_collections g) (g_summaries g)) ;;;
  ret t.

Definition tf_pad (x : tensor) (paddings : list (Z * Z)) (name : string) : M tensor :=
  n <- op_name name ;; create_op (Pad x paddings n).

Definition tf_nn_conv2d (x : tensor) (kernels : variable) (strides : list N)
           (p : padding) : M tensor :=
  create_op (Conv2d x (VarRead kernels) strides p).

Definition tf_add (x : tensor) (b : variable) : M tensor :=
  create_op (Add x (VarRead b)).

Definition tf_nn_relu (x : tensor) (name : string) : M tensor :=
  n <- op_name name ;; create_op (Relu x n).

Definition tf_nn_dropout (x keep_prob : tensor) (name : string) : M tensor :=
  n <- op_name name ;; create_op (Dropout x keep_prob n).

Definition tf_reshape (x : tensor) (shp : shape) : M tensor :=
  match known shp with
  | Some ks => create_op (Reshape x ks)
  | None => raise (OtherError "TypeError")
  end.

(** [slim]-style model variable: created like [tf.get_variable] and added to
    the given collections. *)
Definition model_variable (name : string) (shp : shape) (init : initializer)
           (collections : list string) (trainable : bool) : M variable :=
  v <- tf_get_variable name shp init trainable ;;
  add_to_collections collections v ;;;
  ret v.

(** [tf.contrib.layers.batch_norm] with [updates_collections=None],
    [activation_fn=None], [reuse=None], [outputs_collections=None] and
    [scope=None] (so the scope is "BatchNorm").  A list given as
    [variables_collections] applies to every variable the layer creates. *)
Definition batch_norm (inputs : tensor) (decay : float_lit) (center scale : bool)
           (epsilon : float_lit) (is_training : tensor)
           (variables_collections : list string) (trainable : bool) : M tensor :=
  tf_variable_scope "BatchNorm" (
    match get_shape inputs with
    | None => raise (ValueError "Inputs has undefined rank")
    | Some shp =>
        match rev shp with
        | Some c :: _ =>
            let params_shape := [Some c] in
            beta <- (if center
                     then v <- model_variable "beta" params_shape zeros_initializer
                                 variables_collections trainable ;; ret (Some v)
                     else ret None) ;;
            gamma <- (if scale
                      then v <- model_variable "gamma" params_shape ones_initializer
                                  variables_collections trainable ;; ret (Some v)
                      else ret None) ;;
            moving_mean <- model_variable "moving_mean" params_shape
                             zeros_initializer variables_collections false ;;
            moving_variance <- model_variable "moving_variance" params_shape
                                 ones_initializer variables_collections false ;;
            create_op (BatchNorm inputs is_training beta gamma
                                 moving_mean moving_variance decay epsilon)
        | _ => raise (ValueError "Inputs has undefined last dimension")
        end
    end).

Definition tf_squeeze (x : tensor) (axes : list N) : M tensor :=
  create_op (Squeeze x axes).

Definition dtype_eqb (a b : dtype) : bool :=
  match a, b with
  | float32, float32 | bool_, bool_ | int64, int64 => true
  | _, _ => false
  end.

(** The element type of a tensor; the variables of the module are float32. *)
Fixpoint tensor_dtype (t : tensor) : dtype :=
  match t with
  | Placeholder dt _ _ => dt
  | ConstBool _ => bool_
  | VarRead _ => float32
  | Pad x _ _ => tensor_dtype x
  | Conv2d x _ _ _ => tensor_dtype x
  | Add x _ => tensor_dtype x
  | Relu x _ => tensor_dtype x
  | BatchNorm x _ _ _ _ _ _ _ => tensor_dtype x
  | Dropout x _ _ => tensor_dtype x
  | Reshape x _ => tensor_dtype x
  | Squeeze x _ => tensor_dtype x
  | Cast _ dt => dt
  | SparseSoftmaxCrossEntropyWithLogits l _ _ => tensor_dtype l
  | ReduceMean x _ => tensor_dtype x
  end.

(** [tf.cast] returns its argument when it already has the type. *)
Definition tf_cast (x : tensor) (dt : dtype) : M tensor :=
  if dtype_eqb (tensor_dtype x) dt then ret x else create_op (Cast x dt).

Definition tf_nn_sparse_softmax_cross_entropy_with_logits
           (logits labels : tensor) (name : string) : M tensor :=
  n <- op_name name ;;
  create_op (SparseSoftmaxCrossEntropyWithLogits logits labels n).

Definition tf_reduce_mean (x : tensor) (name : string) : M tensor :=
  n <- op_name name ;; create_op (ReduceMean x n).

Definition option_list {A} (o : option A) : list A :=
  match o with
  | Some a => [a]
  | None => []
  end.

(** The variables a tensor depends on through operations that have a
    gradient.  A cast to an integer or boolean type has none, and the
    cross-entropy has one in its logits only. *)
Fixpoint grad_variables (t : tensor) : list variable :=
  match t with
  | Placeholder _ _ _ => []
  | ConstBool _ => []
  | VarRead v => [v]
  | Pad x _ _ => grad_variables x
  | Conv2d x f _ _ => grad_variables x ++ grad_variables f
  | Add x y => grad_variables x ++ grad_variables y
  | Relu x _ => grad_variables x
  | BatchNorm x _ beta gamma _ _ _ _ =>
      grad_variables x ++ option_list beta ++ option_list gamma
  | Dropout x kp _ => grad_variables x ++ grad_variables kp
  | Reshape x _ => grad_variables x
  | Squeeze x _ => grad_variables x
  | Cast _ _ => []
  | SparseSoftmaxCrossEntropyWithLogits l _ _ => grad_variables l
  | ReduceMean x _ => grad_variables x
  end.

Definition has_gradient (loss : tensor) (v : variable) : bool :=
  existsb (fun u => String.eqb (v_name u) (v_name v)) (grad_variables loss).

(** The variables Adam creates for itself when it is applied to [vars]: the
    two power accumulators, then the two moment slots of each variable.  They
    are not trainable and enter the collection of all variables. *)
Definition adam_slots (sc : list string) (vars : list variable) : list variable :=
  [Var (scope_name sc "beta1_power") [] (constant_initializer (FloatLit 9 (-1))) false;
   Var (scope_name sc "beta2_power") [] (constant_initializer (FloatLit 999 (-3))) false]
  ++ flat_map (fun v =>
       [Var (scope_name sc (String.append (v_name v) "/Adam")) (v_shape v)
            zeros_initializer false;
        Var (scope_name sc (String.append (v_name v) "/Adam_1")) (v_shape v)
            zeros_initializer false]) vars.

(** [optimizer.minimize(loss, global_step=...)]: the gradients of [loss] in
    the trainable variables are computed, and it is an error to have no
    trainable variable or no variable with a gradient; the optimizer creates
    its slot variables; the updates are applied and, after them, the global
    step is incremented by one. *)
Definition optimizer_minimize (opt : optimizer) (loss : tensor)
           (global_step : option variable) : M train_op :=
  g <- get_graph ;;
  let var_list := filter v_trainable (g_variables g) in
  match var_list with
  | [] => raise (ValueError "No variables to optimize")
  | _ :: _ =>
      let vars_with_grad := filter (has_gradient loss) var_list in
      match vars_with_grad with
      | [] => raise (ValueError "No gradients provided for any variable")
      | _ :: _ =>
          modify_graph (fun g =>
            fold_left (fun g v => add_variable v g)
                      (adam_slots (g_scope g) vars_with_grad) g) ;;;
          let updates := map (ApplyGradient opt loss) vars_with_grad in
          ret (match global_step with
               | Some gs => AssignAdd gs 1 updates
               | None => Group updates
               end)
      end
  end.

(** *** Sessions, checkpoints and files *)

(** [with graph.as_default(), tf.device(...)] on a new [tf.Graph()]: the body
    builds into an empty graph and the previous default graph is back on
    every exit.  The device annotation only affects placement and is not
    represented. *)
Definition with_new_default_graph {A} (body : M A) : M A :=
  fun s =>
    let outer := default_graph s in
    match body (set_graph empty_graph s) with
    | Ok a s' => Ok a (set_graph outer s')
    | Raise e s' => Raise e (set_graph outer s')
    end.

(** [with tf.Session(config=...) as sess]: closed on every exit. *)
Definition with_session {A} (allow_soft_placement : bool) (body : M A) : M A :=
  fun s =>
    match (record_call (SessionOpen allow_soft_placement) ;;; body) s with
    | Ok a s' => (record_call SessionClose ;;; ret a) s'
    | Raise e s' => (record_call SessionClose ;;; raise e) s'
    end.

(** [try: body except ValueError: handler] *)
Definition try_except_ValueError {A} (body handler : M A) : M A :=
  fun s =>
    match body s with
    | Raise (ValueError _) s' => handler s'
    | r => r
    end.

(** [os.path.join(dir, name)] for a relative [name]. *)
Definition ends_with_slash (s : string) : bool :=
  match rev (list_ascii_of_string s) with
  | c :: _ => Ascii.eqb c "/"%char
  | [] => false
  end.

Definition os_path_join (dir name : string) : string :=
  if String.eqb dir "" then name
  else if ends_with_slash dir then String.append dir name
  else String.append dir (String.append "/" name).

(** [tf.train.write_graph]: writes the graph definition to [logdir/name],
    or raises when the file system refuses ([outcome]). *)
Definition tf_train_write_graph (outcome : option exn) (g : graph)
           (logdir name : string) (as_text : bool) : M unit :=
  record_call (WriteGraph g logdir name as_text) ;;;
  match outcome with
  | None => create_file (os_path_join logdir name)
  | Some e => raise e
  end.

(** What a call of the freezing utility comes to: the frozen model is
    written, the utility returns without writing it (it found an input
    missing), or it raises. *)
Inductive freeze_result :=
| Frozen
| NotFrozen
| FreezeRaises (e : exn).

(** [freeze_graph.freeze_graph]: the freezing utility, a module outside these
    sources, by its call and its [outcome]. *)
Definition freeze_graph (outcome : freeze_result)
           (input_graph input_saver : string) (input_binary : bool)
           (input_checkpoint output_node_names restore_op_name
            filename_tensor_name output_graph : string)
           (clear_devices : bool) (initializer_nodes : string) : M unit :=
  record_call (FreezeGraph input_graph input_saver input_binary input_checkpoint
                           output_node_names restore_op_name filename_tensor_name
                           output_graph clear_devices initializer_nodes) ;;;
  match outcome with
  | Frozen => create_file output_graph
  | NotFrozen => ret tt
  | FreezeRaises e => raise e
  end.

(** ** utils.py *)

Module utils.

Definition log_histogram (var : variable) (name : string) : M summary :=
  add_summary (HistogramSummary name var).

Definition weight (shp : shape) (name : string) (init : initializer) : M variable :=
  w <- tf_get_variable name shp init true ;;
  log_histogram w (var_tensor_name w) ;;;
  ret w.

Definition dim_in (d : dim) (l : list N) : bool :=
  match d with
  | Some n => existsb (N.eqb n) l
  | None => false
  end.

Definition kernels (shp : shape) (name : string) (init : initializer) : M variable :=
  w <- weight shp name init ;;
  d2 <- py_index shp 2 ;;
  (if dim_in d2 [1; 3; 4] then
     num_kernels <- py_index shp 3 ;;
     depth <- py_index shp 2 ;;
     max_images <- py_int_truediv num_kernels depth ;;
     s0 <- py_index shp 0 ;;
     s1 <- py_index shp 1 ;;
     img <- tf_reshape (VarRead w) [num_kernels; s0; s1; depth] ;;
     tf_image_summary name img max_images ;;;
     ret tt
   else ret tt) ;;;
  ret w.

Definition bias (shp : shape) (name : string) (init_val : float_lit) : M variable :=
  b <- tf_get_variable name shp (constant_initializer init_val) true ;;
  log_histogram b (var_tensor_name b) ;;;
  ret b.

End utils.

(** ** pgnet.py *)

Module pgnet.

(* network constants *)
Definition INPUT_SIDE : N := 192.
Definition INPUT_DEPTH : N := 3.
Definition DOWNSAMPLING_FACTOR : N := 8.
Definition KERNEL_SIDE : N := 3.
Definition LAST_KERNEL_SIDE : N := KERNEL_SIDE.
Definition LAST_CONV_STRIDE : N := 1.
Definition FC_NEURONS : N := 2048.

(* train constants *)
Definition BATCH_SIZE : N := 256.
Definition LEARNING_RATE : float_lit := FloatLit 1 (-5).

(* output tensor name *)
Definition OUTPUT_TENSOR_NAME : string := "softmax_linear/out".

(* name of the collection that holds non trainable but required variables *)
Definition REQUIRED_NON_TRAINABLES : string := "required_vars_collection".

(** ReLU(conv2d(x, kernels, padding, strides) + bias) *)
Definition conv_layer (input_x : tensor) (kernel_shape : shape) (pad : padding)
           (strides : list N) : M tensor :=
  num_kernels <- py_index kernel_shape 3 ;;
  kernels <- utils.kernels kernel_shape "kernels" xavier_initializer_conv2d ;;
  bias <- utils.bias [num_kernels] "bias" (FloatLit 0 0) ;;
  conv <- tf_nn_conv2d input_x kernels strides pad ;;
  sum <- tf_add conv bias ;;
  tf_nn_relu sum "out".

(** [int((kernel_side - 1) / 2)]: the float quotient truncated towards
    zero, which is 0 for the quotient -0.5 of [kernel_side] 0. *)
Definition py_pad_amount (kernel_side : N) : M Z :=
  let z := (Z.of_N kernel_side - 1)%Z in
  if (z <? 0)%Z then ret 0%Z
  else match float_int_div (Z.to_N z) 2 with
       | Some q => ret (Z.of_N q)
       | None => raise (OtherError "OverflowError")
       end.

(** The value [py_pad_amount] returns. *)
Definition pad_amount (kernel_side : N) : Z :=
  let z := (Z.of_N kernel_side - 1)%Z in
  if (z <? 0)%Z then 0%Z
  else match float_int_div (Z.to_N z) 2 with
       | Some q => Z.of_N q
       | None => 0%Z
       end.

(** batch_norm(conv_layer(input_padded)) *)
Definition eq_conv_layer (input_x : tensor) (kernel_side num_kernels : N)
           (strides : list N) (is_training_ : tensor) : M tensor :=
  tf_variable_scope "eq_conv_layer" (
    in_shape <- match get_shape input_x with
                | Some s => ret s
                | None => raise (ValueError "unknown shape")
                end ;;
    depth <- py_index in_shape 3 ;;
    let kernel_shape := [Some kernel_side; Some kernel_side; depth; Some num_kernels] in
    pad_amount <- py_pad_amount kernel_side ;;
    input_padded <- tf_pad input_x
                      [(0, 0); (pad_amount, pad_amount);
                       (pad_amount, pad_amount); (0, 0)]%Z
                      "input_padded" ;;
    print (OutTensor input_padded) ;;;
    conv <- conv_layer input_padded kernel_shape VALID strides ;;
    batch_norm conv (FloatLit 999 (-3)) true true (FloatLit 1 (-3))
               is_training_ [REQUIRED_NON_TRAINABLES] true).

Definition get (num_classes : N) (images_ keep_prob_ is_training_ : tensor)
           (train_phase : bool) : M tensor :=
  let is_training_ := if negb train_phase then ConstBool false else is_training_ in
  print (OutTensor images_) ;;;
  let num_kernels := 2 ^ 7 in
  conv2 <- tf_variable_scope (str num_kernels) (
    conv1 <- tf_variable_scope "conv1" (
      eq_conv_layer images_ KERNEL_SIDE num_kernels [1; 2; 2; 1] is_training_) ;;
    print (OutTensor conv1) ;;;
    conv2 <- tf_variable_scope "conv2" (
      eq_conv_layer conv1 KERNEL_SIDE num_kernels [1; 2; 2; 1] is_training_) ;;
    print (OutTensor conv2) ;;;
    ret conv2) ;;
  let num_kernels := num_kernels * 2 in
  conv4 <- tf_variable_scope (str num_kernels) (
    conv3 <- tf_variable_scope "conv3" (
      eq_conv_layer conv2 KERNEL_SIDE num_kernels [1; 2; 2; 1] is_training_) ;;
    print (OutTensor conv3) ;;;
    conv4 <- tf_variable_scope "conv4" (
      eq_conv_layer conv3 KERNEL_SIDE num_kernels [1; 2; 2; 1] is_training_) ;;
    print (OutTensor conv4) ;;;
    ret conv4) ;;
  let num_kernels := num_kernels * 2 in
  conv6 <- tf_variable_scope (str num_kernels) (
    conv5 <- tf_variable_scope "conv5" (
      eq_conv_layer conv4 KERNEL_SIDE num_kernels [1; 2; 2; 1] is_training_) ;;
    print (OutTensor conv5) ;;;
    conv6 <- tf_variable_scope "conv6" (
      eq_conv_layer conv5 KERNEL_SIDE num_kernels [1; 2; 2; 1] is_training_) ;;
    print (OutTensor conv6) ;;;
    ret conv6) ;;
  (* fully convolutional layer *)
  dropout1 <- tf_variable_scope "fc1" (
    fc1 <- conv_layer conv6
             [Some LAST_KERNEL_SIDE; Some LAST_KERNEL_SIDE;
              Some num_kernels; Some FC_NEURONS]
             VALID [1; 1; 1; 1] ;;
    if negb train_phase then ret fc1
    else tf_nn_dropout fc1 keep_prob_ "dropout") ;;
  print (OutTensor dropout1) ;;;
  dropout2 <- tf_variable_scope "fc2" (
    fc2 <- conv_layer dropout1 [Some 1; Some 1; Some FC_NEURONS; Some FC_NEURONS]
             VALID [1; 1; 1; 1] ;;
    if negb train_phase then ret fc2
    else tf_nn_dropout fc2 keep_prob_ "dropout") ;;
  print (OutTensor dropout2) ;;;
  out <- tf_variable_scope "softmax_linear" (
    conv_layer dropout2 [Some 1; Some 1; Some FC_NEURONS; Some num_classes]
               VALID [1; 1; 1; 1]) ;;
  print (OutTensor out) ;;;
  ret out.

Definition loss (logits labels : tensor) : M tensor :=
  tf_variable_scope "loss" (
    logits <- tf_squeeze logits [1; 2] ;;
    labels <- tf_cast labels int64 ;;
    cross_entropy <- tf_nn_sparse_softmax_cross_entropy_with_logits
                       logits labels "cross_entropy_per_example" ;;
    mean_cross_entropy <- tf_reduce_mean cross_entropy "mean_cross_entropy" ;;
    add_summary (ScalarSummary "loss/mean_cross_entropy" mean_cross_entropy) ;;;
    ret mean_cross_entropy).

Definition train (loss_op : tensor) (global_step : variable) : M train_op :=
  tf_variable_scope "train" (
    let optimizer := AdamOptimizer LEARNING_RATE in
    (* minimizes loss and increments global_step by 1 *)
    optimizer_minimize optimizer loss_op (Some global_step)).

Definition variables_to_save (addlist : list variable) : M (list variable) :=
  trainable <- tf_trainable_variables ;;
  required <- tf_get_collection_ref REQUIRED_NON_TRAINABLES ;;
  ret (trainable ++ required ++ addlist).

Definition define_model (num_classes : N) (train_phase : bool)
  : M (tensor * tensor * tensor * tensor) :=
  is_training_ <- tf_placeholder bool_ [] "is_training_" ;;
  keep_prob_ <- tf_placeholder float32 [] "keep_prob_" ;;
  images_ <- tf_placeholder float32
               [None; Some INPUT_SIDE; Some INPUT_SIDE; Some INPUT_DEPTH]
               "images_" ;;
  logits <- get num_classes images_ keep_prob_ is_training_ train_phase ;;
  ret (is_training_, keep_prob_, images_, logits).

Section ExportModel.

(** What [saver.restore] does for a given checkpoint path is decided by the
    checkpoint on disk: [None] when it restores, [Some e] when it raises [e]. *)
Variable restore_outcome : string -> option exn.

(** Likewise for [tf.train.write_graph], given the directory and the file
    name, and for the freezing utility, given the graph definition it reads,
    the checkpoint and the file it is to write. *)
Variable write_graph_outcome : string -> string -> option exn.
Variable freeze_graph_outcome : string -> string -> string -> freeze_result.

Definition saver_restore (save_path : string) : M unit :=
  record_call (SaverRestore save_path) ;;;
  match restore_outcome save_path with
  | None => ret tt
  | Some e => raise e
  end.

Definition export_model (num_classes : N)
           (session_dir input_checkpoint model_filename : string) : M pyval :=
  model_exists <- os_path_exists model_filename ;;
  (* if the trained model does not exist *)
  if negb model_exists then
    with_new_default_graph (
      define_model num_classes false ;;;
      all_variables <- tf_all_variables ;;
      record_call (SaverCreate all_variables) ;;;
      with_session true (
        restored <- try_except_ValueError
          (saver_restore
             (String.append session_dir (String.append "/" input_checkpoint)) ;;;
           ret true)
          (print_stderr "[E] Unable to restore from checkpoint" ;;;
           ret false) ;;
        if restored : bool then
          (* save model skeleton (the empty graph, its definition) *)
          g <- get_graph ;;
          tf_train_write_graph (write_graph_outcome session_dir "skeleton.pbtxt")
                               g session_dir "skeleton.pbtxt" true ;;;
          freeze_graph
            (freeze_graph_outcome
               (String.append session_dir "/skeleton.pbtxt")
               (String.append session_dir (String.append "/" input_checkpoint))
               model_filename)
            (String.append session_dir "/skeleton.pbtxt") "" false
            (String.append session_dir (String.append "/" input_checkpoint))
            OUTPUT_TENSOR_NAME "save/restore_all" "save/Const:0"
            model_filename true "" ;;;
          ret PyNone
        else ret (PyInt (-1))))
  else
    print (OutText (String.append model_filename
                      " already exists. Skipping export_model")) ;;;
    ret PyNone.

End ExportModel.

End pgnet.

(** * Closed forms of what the builders produce *)

Import pgnet.

(** The tensor [conv_layer] returns when called under scope [sc]. *)
Definition conv_layer_kernels (sc : list string) (ks : list N) : variable :=
  Var (scope_name sc "kernels") ks xavier_initializer_conv2d true.

Definition conv_layer_bias (sc : list string) (kn : N) : variable :=
  Var (scope_name sc "bias") [kn] (constant_initializer (FloatLit 0 0)) true.

Definition conv_layer_tensor (sc : list string) (x : tensor) (kh kw kd kn : N)
           (p : padding) (strides : list N) : tensor :=
  Relu (Add (Conv2d x (VarRead (conv_layer_kernels sc [kh; kw; kd; kn])) strides p)
            (VarRead (conv_layer_bias sc kn)))
       (scope_name sc "out").

Definition conv_layer_summaries (sc : list string) (kh kw kd kn : N)
  : list summary :=
  let K := conv_layer_kernels sc [kh; kw; kd; kn] in
  let B := conv_layer_bias sc kn in
  [HistogramSummary (var_tensor_name K) K]
  ++ (if utils.dim_in (Some kd) [1; 3; 4]
      then [ImageSummary "kernels" (Reshape (VarRead K) [kn; kh; kw; kd]) (kn / kd)]
      else [])
  ++ [HistogramSummary (var_tensor_name B) B].

(** The tensor, variables and collection entries of one [eq_conv_layer]
    called under scope [sc] on an input of depth [d]. *)
Definition eq_scope (sc : list string) : list string := sc ++ ["eq_conv_layer"].

Definition bn_scope (sc : list string) : list string := eq_scope sc ++ ["BatchNorm"].

Definition bn_beta sc n := Var (scope_name (bn_scope sc) "beta") [n] zeros_initializer true.

Definition bn_gamma sc n := Var (scope_name (bn_scope sc) "gamma") [n] ones_initializer true.

Definition bn_moving_mean sc n :=
  Var (scope_name (bn_scope sc) "moving_mean") [n] zeros_initializer false.

Definition bn_moving_variance sc n :=
  Var (scope_name (bn_scope sc) "moving_variance") [n] ones_initializer false.

Definition eq_conv_padded (sc : list string) (x : tensor) (k : N) : tensor :=
  Pad x [(0, 0); (pad_amount k, pad_amount k);
         (pad_amount k, pad_amount k); (0, 0)]%Z
      (scope_name (eq_scope sc) "input_padded").

Definition eq_conv_layer_tensor (sc : list string) (x : tensor) (k d n : N)
           (strides : list N) (it : tensor) : tensor :=
  BatchNorm (conv_layer_tensor (eq_scope sc) (eq_conv_padded sc x k) k k d n VALID strides)
            it (Some (bn_beta sc n)) (Some (bn_gamma sc n))
            (bn_moving_mean sc n) (bn_moving_variance sc n)
            (FloatLit 999 (-3)) (FloatLit 1 (-3)).

Definition eq_conv_layer_variables (sc : list string) (k d n : N) : list variable :=
  [conv_layer_kernels (eq_scope sc) [k; k; d; n]; conv_layer_bias (eq_scope sc) n;
   bn_beta sc n; bn_gamma sc n; bn_moving_mean sc n; bn_moving_variance sc n].

Definition bn_variables (sc : list string) (n : N) : list variable :=
  [bn_beta sc n; bn_gamma sc n; bn_moving_mean sc n; bn_moving_variance sc n].

Definition collection_add_all (name : string) (vs : list variable)
           (cs : list (string * list variable)) :=
  fold_left (fun c v => collection_add name v c) vs cs.

(** Names created one after the other are all new. *)
Fixpoint fresh_names (old new : list string) : bool :=
  match new with
  | [] => true
  | n :: r => negb (existsb (String.eqb n) old) && fresh_names (old ++ [n]) r
  end.

(** Extent after the explicit padding and the VALID convolution. *)
Definition eq_conv_out (k s i : N) : N :=
  (i + Z.to_N (pad_amount k) + Z.to_N (pad_amount k) - k + s) / s.

(** Extents that may be unknown: a bound holds of an unknown extent, and an
    unknown extent stays unknown. *)
Definition dim_le (k : N) (i : dim) : Prop :=
  match i with
  | Some n => k <= n
  | None => True
  end.

Definition padded_dim (k : N) (i : dim) : dim :=
  option_map (fun n => n + Z.to_N (pad_amount k) + Z.to_N (pad_amount k)) i.

Definition valid_out (k s : N) (i : dim) : dim :=
  option_map (fun n => (n - k + s) / s) i.

Definition eq_conv_out_dim (k s : N) (i : dim) : dim :=
  option_map (eq_conv_out k s) i.

(** ** The network of [get] in closed form *)

(** Spatial extent after one block of [get]: kernel side 3, stride 2. *)
Definition down (i : N) : N := eq_conv_out KERNEL_SIDE 2 i.

Definition side6 (i : N) : N := down (down (down (down (down (down i))))).

Definition down_dim (i : dim) : dim := option_map down i.

(** Side of the map of class vectors for an input of side [i]. *)
Definition out_side (i : N) : N := side6 i - 2.

Definition get_is_training (is_training_ : tensor) (train_phase : bool) : tensor :=
  if negb train_phase then ConstBool false else is_training_.

Section GetTensor.
Variables (num_classes d : N) (images_ keep_prob_ is_training_ : tensor)
          (train_phase : bool).

Let it := get_is_training is_training_ train_phase.
Let s2 : list N := [1; 2; 2; 1].
Let s1 : list N := [1; 1; 1; 1].

Definition conv1_tensor := eq_conv_layer_tensor ["128"; "conv1"] images_ 3 d 128 s2 it.
Definition conv2_tensor := eq_conv_layer_tensor ["128"; "conv2"] conv1_tensor 3 128 128 s2 it.
Definition conv3_tensor := eq_conv_layer_tensor ["256"; "conv3"] conv2_tensor 3 128 256 s2 it.
Definition conv4_tensor := eq_conv_layer_tensor ["256"; "conv4"] conv3_tensor 3 256 256 s2 it.
Definition conv5_tensor := eq_conv_layer_tensor ["512"; "conv5"] conv4_tensor 3 256 512 s2 it.
Definition conv6_tensor := eq_conv_layer_tensor ["512"; "conv6"] conv5_tensor 3 512 512 s2 it.

Definition fc1_tensor := conv_layer_tensor ["fc1"] conv6_tensor 3 3 512 2048 VALID s1.
Definition dropout1_tensor :=
  if negb train_phase then fc1_tensor
  else Dropout fc1_tensor keep_prob_ (scope_name ["fc1"] "dropout").
Definition fc2_tensor := conv_layer_tensor ["fc2"] dropout1_tensor 1 1 2048 2048 VALID s1.
Definition dropout2_tensor :=
  if negb train_phase then fc2_tensor
  else Dropout fc2_tensor keep_prob_ (scope_name ["fc2"] "dropout").
Definition get_tensor :=
  conv_layer_tensor ["softmax_linear"] dropout2_tensor 1 1 2048 num_classes VALID s1.

Definition get_variables : list variable :=
  eq_conv_layer_variables ["128"; "conv1"] 3 d 128
  ++ eq_conv_layer_variables ["128"; "conv2"] 3 128 128
  ++ eq_conv_layer_variables ["256"; "conv3"] 3 128 256
  ++ eq_conv_layer_variables ["256"; "conv4"] 3 256 256
  ++ eq_conv_layer_variables ["512"; "conv5"] 3 256 512
  ++ eq_conv_layer_variables ["512"; "conv6"] 3 512 512
  ++ [conv_layer_kernels ["fc1"] [3; 3; 512; 2048]; conv_layer_bias ["fc1"] 2048;
      conv_layer_kernels ["fc2"] [1; 1; 2048; 2048]; conv_layer_bias ["fc2"] 2048;
      conv_layer_kernels ["softmax_linear"] [1; 1; 2048; num_classes];
      conv_layer_bias ["softmax_linear"] num_classes].

Definition get_required : list variable :=
  bn_variables ["128"; "conv1"] 128 ++ bn_variables ["128"; "conv2"] 128
  ++ bn_variables ["256"; "conv3"] 256 ++ bn_variables ["256"; "conv4"] 256
  ++ bn_variables ["512"; "conv5"] 512 ++ bn_variables ["512"; "conv6"] 512.
End GetTensor.

(** * Reading a built graph *)

(** One operation on the path the data takes from the network's input to a
    tensor.  Variables enter as the second operand of a convolution or of an
    addition; anything that is not one of the six kinds the network is made of
    is [OpOther]. *)
Inductive op :=
| OpPad (paddings : list (Z * Z)) (name : string)
| OpConv2d (kernel_shape : list N) (strides : list N) (p : padding)
| OpBiasAdd (bias_shape : list N)
| OpRelu (name : string)
| OpBatchNorm (is_training : tensor) (moving_mean moving_variance : variable)
| OpDropout (keep_prob : tensor) (name : string)
| OpOther.



(** The layers an operation sequence is made of. *)
Inductive block :=
| EqConvBlock (paddings : list (Z * Z)) (kernel_shape : list N) (strides : list N)
| ConvBlock (kernel_shape : list N) (p : padding) (strides : list N) (name : string)
| DropoutBlock (keep_prob : tensor)
| Unrecognised (o : op).






Definition block_kernel_shape (b : block) : list N :=
  match b with
  | EqConvBlock _ ks _ => ks
  | ConvBlock ks _ _ _ => ks
  | _ => []
  end.


(** Spatial side of the kernel: [(height, width)]. *)
Definition block_kernel_side (b : block) : N * N :=
  match block_kernel_shape b with
  | kh :: kw :: _ => (kh, kw)
  | _ => (0, 0)
  end.




(** ** Running a graph *)

(** The value a tensor evaluates to, for an arbitrary interpretation of the
    framework's operations: [feed] gives the values fed to the placeholders
    and [weights] the current values of the variables. *)
Section Run.
Variable V : Type.
Variable feed : string -> V.
Variable weights : variable -> V.
Variable sem_bool : bool -> V.
Variable sem_pad : V -> list (Z * Z) -> V.
Variable sem_conv2d : V -> V -> list N -> padding -> V.
Variable sem_add : V -> V -> V.
Variable sem_relu : V -> V.
Variable sem_batch_norm : V -> V -> option V -> option V -> V -> V ->
                          float_lit -> float_lit -> V.
Variable sem_dropout : V -> V -> V.
Variable sem_reshape : V -> list N -> V.
Variable sem_squeeze : V -> list N -> V.
Variable sem_cast : V -> dtype -> V.
Variable sem_xent : V -> V -> V.
Variable sem_mean : V -> V.

End Run.

(** ** The operations of the network *)








(** ** The export routine *)

Definition define_model_placeholders : list tensor :=
  [Placeholder bool_ [] "is_training_"; Placeholder float32 [] "keep_prob_";
   Placeholder float32 [None; Some INPUT_SIDE; Some INPUT_SIDE; Some INPUT_DEPTH]
               "images_"].

Definition skip_message (model_filename : string) : string :=
  String.append model_filename " already exists. Skipping export_model".

Definition checkpoint_path (session_dir input_checkpoint : string) : string :=
  String.append session_dir (String.append "/" input_checkpoint).

Definition is_write_or_freeze (c : call) : bool :=
  match c with
  | WriteGraph _ _ _ _ => true
  | FreezeGraph _ _ _ _ _ _ _ _ _ _ => true
  | _ => false
  end.

(** The calls of a complete export. *)
Definition export_calls (g : graph) (session_dir input_checkpoint model_filename : string)
  : list call :=
  [SaverCreate (g_variables g);
   SessionOpen true;
   SaverRestore (checkpoint_path session_dir input_checkpoint);
   WriteGraph g session_dir "skeleton.pbtxt" true;
   FreezeGraph (String.append session_dir "/skeleton.pbtxt") "" false
               (checkpoint_path session_dir input_checkpoint)
               OUTPUT_TENSOR_NAME "save/restore_all" "save/Const:0"
               model_filename true "";
   SessionClose].

(** ** Concrete inputs: the placeholders of [define_model] *)

Definition example_images : tensor :=
  Placeholder float32 [None; Some INPUT_SIDE; Some INPUT_SIDE; Some INPUT_DEPTH] "images_".

Definition example_keep_prob : tensor := Placeholder float32 [] "keep_prob_".

Definition example_is_training : tensor := Placeholder bool_ [] "is_training_".

Definition initial_state : state := State empty_graph [] [] [] [].

(** A graph with one trainable variable and a step counter. *)
Definition example_weight : variable := Var "w" [10] zeros_initializer true.

Definition example_global_step : variable :=
  Var "global_step" [] (constant_initializer (FloatLit 0 0)) false.

Definition example_trainable_state : state :=
  State (Graph [] [] [example_weight; example_global_step] [] []) [] [] [] [].

Definition failing_restore : string -> option exn :=
  fun _ => Some (ValueError "Restore called with invalid save path").

Definition working_restore : string -> option exn := fun _ => None.

Definition working_write_graph : string -> string -> option exn := fun _ _ => None.

Definition working_freeze_graph : string -> string -> string -> freeze_result :=
  fun _ _ _ => Frozen.

(** * Symbolic execution of the builders *)

Lemma num_elements_rotate kh kw kd kn :
  num_elements [kh; kw; kd; kn] = num_elements [kn; kh; kw; kd].
Proof. unfold num_elements; simpl; lia. Qed.

Lemma dim_in_134_nonzero d : utils.dim_in (Some d) [1; 3; 4] = true -> d <> 0.
Proof.
  unfold utils.dim_in; simpl; intros H ->; discriminate.
Qed.

Lemma create_op_ok t s : get_shape t = Some s -> create_op t = ret t.
Proof. unfold create_op; now intros ->. Qed.

Lemma get_shape_Add x y :
  get_shape (Add x y) = match get_shape x, get_shape y with
                        | Some xs, Some ys => add_shape xs ys
                        | _, _ => None
                        end.
Proof. reflexivity. Qed.

Lemma get_shape_Conv2d x f strides p :
  get_shape (Conv2d x f strides p)
  = match get_shape x, get_shape f with
    | Some xs, Some fs => conv2d_shape xs fs strides p
    | _, _ => None
    end.
Proof. reflexivity. Qed.

Lemma get_shape_Pad x paddings n :
  get_shape (Pad x paddings n) = match get_shape x with
                                 | Some s => pad_shape s paddings
                                 | None => None
                                 end.
Proof. reflexivity. Qed.

Lemma fresh_after vs v name :
  existsb (String.eqb name) (map v_name vs) = false ->
  String.eqb name (v_name v) = false ->
  existsb (String.eqb name) (map v_name (vs ++ [v])) = false.
Proof.
  intros H1 H2. rewrite map_app, existsb_app, H1. simpl. now rewrite H2.
Qed.

(** Symbolic execution of the builder: unfold the plumbing of the monad and
    stop at the tests that depend on names, shapes and dimensions. *)
Ltac run_step :=
  cbn -[scope_name existsb utils.dim_in create_op get_shape py_int_truediv
        N.div num_elements app conv_layer_kernels conv_layer_bias
        initializer_divides_by_zero float_int_div tf_image_summary N.ltb];
  repeat match goal with
         | |- context [initializer_divides_by_zero (constant_initializer ?v) ?k] =>
             change (initializer_divides_by_zero (constant_initializer v) k) with false
         end;
  unfold scoped; cbn [g_scope g_variables default_graph set_graph add_variable].

Lemma float_int_div_small a b :
  a < 2 ^ 53 -> b < 2 ^ 53 -> float_int_div a b = Some (a / b).
Proof.
  intros Ha Hb. unfold float_int_div.
  now rewrite (proj2 (N.ltb_lt _ _) Ha), (proj2 (N.ltb_lt _ _) Hb).
Qed.

Lemma dim_in_134_small d : utils.dim_in (Some d) [1; 3; 4] = true -> d < 2 ^ 53.
Proof.
  unfold utils.dim_in; simpl. intros H.
  repeat (apply orb_prop in H; destruct H as [H|H]);
    try (apply N.eqb_eq in H; subst d; reflexivity); discriminate.
Qed.

Lemma conv_layer_run x kh kw kd kn p strides sc phs vs cols sums out err fs cs b oh ow :
  existsb (String.eqb (scope_name sc "kernels")) (map v_name vs) = false ->
  existsb (String.eqb (scope_name sc "bias")) (map v_name vs) = false ->
  String.eqb (scope_name sc "bias") (scope_name sc "kernels") = false ->
  get_shape (Conv2d x (VarRead (conv_layer_kernels sc [kh; kw; kd; kn])) strides p)
    = Some [b; oh; ow; Some kn] ->
  initializer_divides_by_zero xavier_initializer_conv2d [kh; kw; kd; kn] = false ->
  (utils.dim_in (Some kd) [1; 3; 4] = true -> kd <= kn /\ kn < 2 ^ 53) ->
  conv_layer x [Some kh; Some kw; Some kd; Some kn] p strides
             (State (Graph sc phs vs cols sums) out err fs cs)
  = Ok (conv_layer_tensor sc x kh kw kd kn p strides)
       (State (Graph sc phs
                     (vs ++ [conv_layer_kernels sc [kh; kw; kd; kn];
                             conv_layer_bias sc kn])
                     cols (sums ++ conv_layer_summaries sc kh kw kd kn))
              out err fs cs).
Proof.
  intros FK FB FKB SH XV Hd.
  assert (SA : get_shape (Add (Conv2d x (VarRead (conv_layer_kernels sc [kh; kw; kd; kn]))
                                      strides p)
                              (VarRead (conv_layer_bias sc kn)))
               = Some [b; oh; ow; Some kn]).
  { rewrite get_shape_Add, SH. cbn. now rewrite N.eqb_refl. }
  unfold conv_layer, utils.kernels, utils.weight, utils.bias, utils.log_histogram,
    tf_get_variable, tf_nn_conv2d, tf_add, tf_nn_relu, tf_reshape, add_summary,
    op_name, get_graph, modify_graph, py_index, bind, ret.
  run_step. rewrite FK. run_step. rewrite XV. run_step.
  fold (conv_layer_kernels sc [kh; kw; kd; kn]).
  unfold conv_layer_summaries.
  destruct (utils.dim_in (Some kd) [1; 3; 4]) eqn:E.
  - destruct (Hd eq_refl) as [Hle Hn].
    unfold py_int_truediv, ret.
    rewrite (proj2 (N.eqb_neq kd 0) (dim_in_134_nonzero _ E)).
    rewrite (float_int_div_small _ _ Hn (dim_in_134_small _ E)).
    run_step.
    rewrite (create_op_ok _ (map Some [kn; kh; kw; kd])).
    2:{ cbn -[num_elements]. now rewrite num_elements_rotate, N.eqb_refl. }
    unfold tf_image_summary.
    assert (M1 : (kn / kd <? 1) = false).
    { apply N.ltb_ge. apply N.div_le_lower_bound;
        [exact (dim_in_134_nonzero _ E)|rewrite N.mul_1_r; exact Hle]. }
    rewrite M1.
    unfold add_summary, modify_graph, bind, ret.
    run_step.
    rewrite fresh_after by assumption.
    run_step.
    rewrite (create_op_ok _ _ SH). unfold ret.
    fold (conv_layer_bias sc kn).
    rewrite (create_op_ok _ _ SA). unfold ret.
    rewrite (create_op_ok (Relu _ _) [b; oh; ow; Some kn]) by exact SA.
    unfold ret, conv_layer_tensor, set_graph, add_variable. cbn.
    now rewrite <- !app_assoc.
  - run_step.
    rewrite fresh_after by assumption.
    run_step.
    rewrite (create_op_ok _ _ SH). unfold ret.
    fold (conv_layer_bias sc kn).
    rewrite (create_op_ok _ _ SA). unfold ret.
    rewrite (create_op_ok (Relu _ _) [b; oh; ow; Some kn]) by exact SA.
    unfold ret, conv_layer_tensor, set_graph, add_variable. cbn.
    now rewrite <- !app_assoc.
Qed.

Lemma fresh_names_cons old n r :
  fresh_names old (n :: r) = true ->
  existsb (String.eqb n) old = false /\ fresh_names (old ++ [n]) r = true.
Proof.
  simpl. intros H. apply andb_prop in H. destruct H as [H1 H2].
  split; [now apply negb_true_iff|assumption].
Qed.

Lemma fresh_names_app old a b :
  fresh_names old (a ++ b) = fresh_names old a && fresh_names (old ++ a) b.
Proof.
  revert old. induction a as [|n r IH]; intros old; cbn [app fresh_names].
  - now rewrite app_nil_r.
  - rewrite IH, <- app_assoc, andb_assoc. reflexivity.
Qed.

Lemma existsb_app_false {A} (f : A -> bool) l l' :
  existsb f (l ++ l') = false -> existsb f l = false /\ existsb f l' = false.
Proof. rewrite existsb_app. apply orb_false_elim. Qed.

(** [conv_layer] under the hypothesis that its two names are new. *)
Lemma conv_layer_fresh_run x kh kw kd kn p strides sc phs vs cols sums out err fs cs
      b oh ow :
  fresh_names (map v_name vs) [scope_name sc "kernels"; scope_name sc "bias"] = true ->
  get_shape (Conv2d x (VarRead (conv_layer_kernels sc [kh; kw; kd; kn])) strides p)
    = Some [b; oh; ow; Some kn] ->
  initializer_divides_by_zero xavier_initializer_conv2d [kh; kw; kd; kn] = false ->
  (utils.dim_in (Some kd) [1; 3; 4] = true -> kd <= kn /\ kn < 2 ^ 53) ->
  conv_layer x [Some kh; Some kw; Some kd; Some kn] p strides
             (State (Graph sc phs vs cols sums) out err fs cs)
  = Ok (conv_layer_tensor sc x kh kw kd kn p strides)
       (State (Graph sc phs
                     (vs ++ [conv_layer_kernels sc [kh; kw; kd; kn];
                             conv_layer_bias sc kn])
                     cols (sums ++ conv_layer_summaries sc kh kw kd kn))
              out err fs cs).
Proof.
  intros F SH XV Hd.
  apply fresh_names_cons in F. destruct F as [F1 F].
  apply fresh_names_cons in F. destruct F as [F2 _].
  apply existsb_app_false in F2. destruct F2 as [F2 F3].
  cbn in F3. rewrite orb_false_r in F3.
  now apply conv_layer_run with (b := b) (oh := oh) (ow := ow).
Qed.

Lemma pad_amount_nonneg k : (pad_amount k <? 0)%Z = false.
Proof.
  unfold pad_amount. apply Z.ltb_ge. cbv zeta.
  destruct (Z.of_N k - 1 <? 0)%Z; [lia|].
  destruct (float_int_div _ _); lia.
Qed.

(** Up to 2^53 the float quotient is exact. *)
Lemma pad_amount_small k :
  k <= 2 ^ 53 -> pad_amount k = Z.quot (Z.of_N k - 1) 2.
Proof.
  intros Hk. unfold pad_amount. cbv zeta.
  destruct (Z.of_N k - 1 <? 0)%Z eqn:E.
  - apply Z.ltb_lt in E. replace (Z.of_N k - 1)%Z with (-1)%Z by lia. reflexivity.
  - apply Z.ltb_ge in E.
    rewrite float_int_div_small; [|lia|reflexivity].
    rewrite N2Z.inj_div, Z2N.id by assumption.
    symmetry. apply Z.quot_div_nonneg; lia.
Qed.

Lemma py_pad_amount_run k st :
  k <= 2 ^ 53 -> py_pad_amount k st = Ok (pad_amount k) st.
Proof.
  intros Hk. unfold py_pad_amount, pad_amount. cbv zeta.
  destruct (Z.of_N k - 1 <? 0)%Z eqn:E; [reflexivity|].
  apply Z.ltb_ge in E.
  rewrite float_int_div_small; [reflexivity|lia|reflexivity].
Qed.

Lemma eq_conv_padded_shape sc x k b h w d :
  get_shape x = Some [b; h; w; Some d] ->
  get_shape (eq_conv_padded sc x k)
  = Some [b; padded_dim k h; padded_dim k w; Some d].
Proof.
  intros H. unfold eq_conv_padded. rewrite get_shape_Pad, H.
  unfold pad_shape, pad_dim. cbn [fst snd]. rewrite pad_amount_nonneg.
  cbn. destruct b; cbn; now rewrite ?N.add_0_r.
Qed.

Lemma conv_out_dim_valid i k s :
  s <> 0 -> dim_le k i -> conv_out_dim VALID i k s = Some (valid_out k s i).
Proof.
  intros Hs Hk. unfold conv_out_dim.
  rewrite (proj2 (N.eqb_neq s 0) Hs).
  destruct i as [n|]; [|reflexivity].
  cbn in Hk. now rewrite (proj2 (N.ltb_ge n k) Hk).
Qed.

Lemma valid_out_padded k s i : valid_out k s (padded_dim k i) = eq_conv_out_dim k s i.
Proof. destruct i; reflexivity. Qed.

Lemma eq_conv_conv_shape sc x k n s b h w d :
  get_shape x = Some [b; h; w; Some d] ->
  s <> 0 ->
  dim_le k (padded_dim k h) -> dim_le k (padded_dim k w) ->
  get_shape (Conv2d (eq_conv_padded sc x k)
                    (VarRead (conv_layer_kernels (eq_scope sc) [k; k; d; n]))
                    [1; s; s; 1] VALID)
  = Some [b; eq_conv_out_dim k s h; eq_conv_out_dim k s w; Some n].
Proof.
  intros H Hs Hh Hw.
  rewrite get_shape_Conv2d, (eq_conv_padded_shape _ _ _ _ _ _ _ H).
  cbn -[conv_out_dim N.eqb padded_dim].
  rewrite N.eqb_refl, !conv_out_dim_valid, !valid_out_padded by assumption.
  reflexivity.
Qed.

Lemma eq_conv_layer_shape sc x k n s it b h w d :
  get_shape x = Some [b; h; w; Some d] ->
  s <> 0 ->
  dim_le k (padded_dim k h) -> dim_le k (padded_dim k w) ->
  get_shape (eq_conv_layer_tensor sc x k d n [1; s; s; 1] it)
  = Some [b; eq_conv_out_dim k s h; eq_conv_out_dim k s w; Some n].
Proof.
  intros H Hs Hh Hw.
  unfold eq_conv_layer_tensor, conv_layer_tensor.
  change (get_shape (BatchNorm ?t _ _ _ _ _ _ _)) with (get_shape t).
  change (get_shape (Relu ?t _)) with (get_shape t).
  rewrite get_shape_Add, (eq_conv_conv_shape _ _ _ _ _ _ _ _ _ H) by assumption.
  cbn. now rewrite N.eqb_refl.
Qed.

(** Unfolding of the monad's plumbing and of the state accessors only. *)
Ltac plumb :=
  cbv beta iota zeta delta
    [bind ret raise get_graph modify_graph set_graph set_scope add_variable
     op_name scoped print py_index tf_variable_scope add_summary
     add_to_collections add_to_collection model_variable
     default_graph stdout stderr files calls
     g_scope g_placeholders g_variables g_collections g_summaries nth_error].

Lemma tf_get_variable_run name n0 init tr sc phs vs cols sums out err fs cs :
  existsb (String.eqb (scope_name sc name)) (map v_name vs) = false ->
  initializer_divides_by_zero init [n0] = false ->
  tf_get_variable name [Some n0] init tr (State (Graph sc phs vs cols sums) out err fs cs)
  = Ok (Var (scope_name sc name) [n0] init tr)
       (State (Graph sc phs (vs ++ [Var (scope_name sc name) [n0] init tr]) cols sums)
              out err fs cs).
Proof.
  intros F Z. unfold tf_get_variable. plumb. cbn [known option_map].
  now rewrite F, Z.
Qed.

(** Bring a freshness test on the variables created so far to the form of
    the hypotheses produced by [fresh_names]. *)
Ltac fresh_norm :=
  rewrite ?map_app; cbn [map v_name conv_layer_kernels conv_layer_bias];
  repeat (rewrite <- app_assoc; cbn [app]).

Lemma eq_conv_layer_run x k n s it sc phs vs cols sums out err fs cs b h w d :
  get_shape x = Some [b; h; w; Some d] ->
  s <> 0 ->
  dim_le k (padded_dim k h) -> dim_le k (padded_dim k w) ->
  fresh_names (map v_name vs) (map v_name (eq_conv_layer_variables sc k d n)) = true ->
  k <= 2 ^ 53 ->
  initializer_divides_by_zero xavier_initializer_conv2d [k; k; d; n] = false ->
  (utils.dim_in (Some d) [1; 3; 4] = true -> d <= n /\ n < 2 ^ 53) ->
  eq_conv_layer x k n [1; s; s; 1] it (State (Graph sc phs vs cols sums) out err fs cs)
  = Ok (eq_conv_layer_tensor sc x k d n [1; s; s; 1] it)
       (State (Graph sc phs (vs ++ eq_conv_layer_variables sc k d n)
                     (collection_add_all REQUIRED_NON_TRAINABLES (bn_variables sc n) cols)
                     (sums ++ conv_layer_summaries (eq_scope sc) k k d n))
              (out ++ [OutTensor (eq_conv_padded sc x k)]) err fs cs).
Proof.
  intros SX Hs Hh Hw F Hk XV Hd.
  cbn [eq_conv_layer_variables map v_name conv_layer_kernels conv_layer_bias
       bn_beta bn_gamma bn_moving_mean bn_moving_variance] in F.
  apply fresh_names_cons in F; destruct F as [F1 F].
  apply fresh_names_cons in F; destruct F as [F2 F].
  apply fresh_names_cons in F; destruct F as [F3 F].
  apply fresh_names_cons in F; destruct F as [F4 F].
  apply fresh_names_cons in F; destruct F as [F5 F].
  apply fresh_names_cons in F; destruct F as [F6 _].
  pose proof (eq_conv_padded_shape sc x k _ _ _ _ SX) as SP.
  pose proof (eq_conv_conv_shape sc x k n s _ _ _ _ SX Hs Hh Hw) as SC.
  pose proof (eq_conv_layer_shape sc x k n s it _ _ _ _ SX Hs Hh Hw) as SB.
  unfold eq_conv_layer, tf_pad. plumb.
  rewrite SX. plumb.
  rewrite (py_pad_amount_run k _ Hk). plumb.
  change (Pad x _ _) with (eq_conv_padded sc x k).
  rewrite (create_op_ok _ _ SP). plumb.
  fold (eq_scope sc).
  rewrite (conv_layer_run _ _ _ _ _ _ _ _ _ _ _ _ _ _ _ _ b (eq_conv_out_dim k s h)
             (eq_conv_out_dim k s w));
    [ | exact F1
      | exact (proj1 (existsb_app_false _ _ _ F2))
      | pose proof (proj2 (existsb_app_false _ _ _ F2)) as E; cbn in E;
        now rewrite orb_false_r in E
      | exact SC | exact XV | exact Hd ].
  change (get_shape (conv_layer_tensor (eq_scope sc) (eq_conv_padded sc x k) k k d n VALID
                                       [1; s; s; 1])
          = Some [b; eq_conv_out_dim k s h; eq_conv_out_dim k s w; Some n]) in SB.
  repeat (rewrite <- app_assoc in F3; cbn [app] in F3).
  repeat (rewrite <- app_assoc in F4; cbn [app] in F4).
  repeat (rewrite <- app_assoc in F5; cbn [app] in F5).
  repeat (rewrite <- app_assoc in F6; cbn [app] in F6).
  unfold batch_norm. plumb.
  rewrite SB. cbn [rev app]. plumb.
  fold (bn_scope sc).
  rewrite tf_get_variable_run by first [reflexivity|(fresh_norm; exact F3)]. plumb.
  rewrite tf_get_variable_run by first [reflexivity|(fresh_norm; exact F4)]. plumb.
  rewrite tf_get_variable_run by first [reflexivity|(fresh_norm; exact F5)]. plumb.
  rewrite tf_get_variable_run by first [reflexivity|(fresh_norm; exact F6)]. plumb.
  rewrite (create_op_ok (BatchNorm _ _ _ _ _ _ _ _)
             [b; eq_conv_out_dim k s h; eq_conv_out_dim k s w; Some n])
    by exact SB.
  unfold eq_conv_layer_tensor, eq_conv_layer_variables, bn_variables,
    collection_add_all, bn_beta, bn_gamma, bn_moving_mean, bn_moving_variance.
  cbn [fold_left]. rewrite <- !app_assoc. reflexivity.
Qed.

(** ** Arithmetic of the spatial sizes *)

Lemma pad_amount_3 : Z.to_N (pad_amount 3) = 1.
Proof. reflexivity. Qed.

Lemma down_eq i : 1 <= i -> down i = (i + 1) / 2.
Proof.
  intros H. unfold down, eq_conv_out, KERNEL_SIDE. rewrite pad_amount_3.
  f_equal. lia.
Qed.

Lemma down_ge1 i : 1 <= i -> 1 <= down i.
Proof.
  intros H. rewrite down_eq by assumption.
  apply N.div_le_lower_bound; lia.
Qed.

Lemma down_mono i j : 1 <= i -> i <= j -> down i <= down j.
Proof.
  intros Hi Hij. rewrite !down_eq by lia.
  apply N.Div0.div_le_mono. lia.
Qed.

Lemma side6_large i : 129 <= i -> 3 <= side6 i.
Proof.
  intros H. change 3 with (side6 129). unfold side6.
  assert (G : forall a b, 1 <= a -> a <= b -> 1 <= down a /\ down a <= down b).
  { intros a b Ha Hab. split; [now apply down_ge1|now apply down_mono]. }
  destruct (G 129 i) as [A1 B1]; [lia|lia|].
  destruct (G _ _ A1 B1) as [A2 B2].
  destruct (G _ _ A2 B2) as [A3 B3].
  destruct (G _ _ A3 B3) as [A4 B4].
  destruct (G _ _ A4 B4) as [A5 B5].
  destruct (G _ _ A5 B5) as [A6 B6].
  exact B6.
Qed.




Lemma valid_3x3_out i : 3 <= i -> (i - 3 + 1) / 1 = i - 2.
Proof. intros H. rewrite N.div_1_r. lia. Qed.

Lemma valid_1x1_out i : 1 <= i -> (i - 1 + 1) / 1 = i.
Proof. intros H. rewrite N.div_1_r. lia. Qed.

(** A block of [get] accepts every input of extent at least 1 and leaves an
    extent of at least 1. *)
Lemma block_fits i : dim_le 1 i -> dim_le KERNEL_SIDE (padded_dim KERNEL_SIDE i).
Proof.
  destruct i as [n|]; [|trivial]. cbn [dim_le padded_dim option_map].
  unfold KERNEL_SIDE. rewrite pad_amount_3. lia.
Qed.

Lemma down_dim_ge1 i : dim_le 1 i -> dim_le 1 (down_dim i).
Proof.
  destruct i as [n|]; [|trivial]. cbn [dim_le down_dim option_map].
  apply down_ge1.
Qed.

Lemma dim_le_trans a b i : a <= b -> dim_le b i -> dim_le a i.
Proof. destruct i as [n|]; [|trivial]. cbn. lia. Qed.

Lemma side6_dim i :
  down_dim (down_dim (down_dim (down_dim (down_dim (down_dim i))))) = option_map side6 i.
Proof. destruct i; reflexivity. Qed.

Lemma side6_dim_large i : dim_le 129 i -> dim_le 3 (option_map side6 i).
Proof.
  destruct i as [n|]; [|trivial]. cbn [dim_le option_map]. apply side6_large.
Qed.

(** ** Shapes along the network *)

Lemma conv2d_valid_shape x K kh kw kd kn s b h w :
  get_shape x = Some [b; h; w; Some kd] ->
  v_shape K = [kh; kw; kd; kn] ->
  s <> 0 -> dim_le kh h -> dim_le kw w ->
  get_shape (Conv2d x (VarRead K) [1; s; s; 1] VALID)
  = Some [b; valid_out kh s h; valid_out kw s w; Some kn].
Proof.
  intros SX SK Hs Hh Hw. rewrite get_shape_Conv2d, SX. cbn [get_shape].
  rewrite SK. cbn -[conv_out_dim N.eqb].
  rewrite N.eqb_refl, !conv_out_dim_valid by assumption. reflexivity.
Qed.

Lemma conv_layer_shape sc x kh kw kd kn s b h w :
  get_shape x = Some [b; h; w; Some kd] ->
  s <> 0 -> dim_le kh h -> dim_le kw w ->
  get_shape (conv_layer_tensor sc x kh kw kd kn VALID [1; s; s; 1])
  = Some [b; valid_out kh s h; valid_out kw s w; Some kn].
Proof.
  intros SX Hs Hh Hw. unfold conv_layer_tensor.
  change (get_shape (Relu ?t _)) with (get_shape t).
  rewrite get_shape_Add,
    (conv2d_valid_shape x (conv_layer_kernels sc [kh; kw; kd; kn])
       kh kw kd kn s b h w SX eq_refl Hs Hh Hw).
  cbn. now rewrite N.eqb_refl.
Qed.

Lemma valid_out_3x3 i : dim_le 3 (option_map side6 i) ->
  valid_out 3 1 (option_map side6 i) = option_map out_side i.
Proof.
  destruct i as [n|]; [|reflexivity]. cbn. intros H.
  unfold out_side. now rewrite valid_3x3_out.
Qed.

Lemma valid_out_1x1 i : dim_le 3 (option_map side6 i) ->
  valid_out 1 1 (option_map out_side i) = option_map out_side i.
Proof.
  destruct i as [n|]; [|reflexivity]. cbn. intros H.
  unfold out_side in *. rewrite valid_1x1_out by lia. reflexivity.
Qed.

Lemma out_side_ge1 i : dim_le 3 (option_map side6 i) -> dim_le 1 (option_map out_side i).
Proof.
  destruct i as [n|]; [|trivial]. cbn. unfold out_side. lia.
Qed.

Lemma conv_shapes images_ it b h w d :
  get_shape images_ = Some [b; h; w; Some d] ->
  dim_le 1 h -> dim_le 1 w ->
  let c1 := eq_conv_layer_tensor ["128"; "conv1"] images_ 3 d 128 [1; 2; 2; 1] it in
  let c2 := eq_conv_layer_tensor ["128"; "conv2"] c1 3 128 128 [1; 2; 2; 1] it in
  let c3 := eq_conv_layer_tensor ["256"; "conv3"] c2 3 128 256 [1; 2; 2; 1] it in
  let c4 := eq_conv_layer_tensor ["256"; "conv4"] c3 3 256 256 [1; 2; 2; 1] it in
  let c5 := eq_conv_layer_tensor ["512"; "conv5"] c4 3 256 512 [1; 2; 2; 1] it in
  let c6 := eq_conv_layer_tensor ["512"; "conv6"] c5 3 512 512 [1; 2; 2; 1] it in
  get_shape c1 = Some [b; down_dim h; down_dim w; Some 128]
  /\ get_shape c2 = Some [b; down_dim (down_dim h); down_dim (down_dim w); Some 128]
  /\ get_shape c3 = Some [b; down_dim (down_dim (down_dim h));
                          down_dim (down_dim (down_dim w)); Some 256]
  /\ get_shape c4 = Some [b; down_dim (down_dim (down_dim (down_dim h)));
                          down_dim (down_dim (down_dim (down_dim w))); Some 256]
  /\ get_shape c5 = Some [b; down_dim (down_dim (down_dim (down_dim (down_dim h))));
                          down_dim (down_dim (down_dim (down_dim (down_dim w))));
                          Some 512]
  /\ get_shape c6 = Some [b; option_map side6 h; option_map side6 w; Some 512].
Proof.
  intros SX h1 w1.
  pose proof (down_dim_ge1 _ h1) as h2. pose proof (down_dim_ge1 _ h2) as h3.
  pose proof (down_dim_ge1 _ h3) as h4. pose proof (down_dim_ge1 _ h4) as h5.
  pose proof (down_dim_ge1 _ h5) as h6.
  pose proof (down_dim_ge1 _ w1) as w2. pose proof (down_dim_ge1 _ w2) as w3.
  pose proof (down_dim_ge1 _ w3) as w4. pose proof (down_dim_ge1 _ w4) as w5.
  pose proof (down_dim_ge1 _ w5) as w6.
  assert (two : 2 <> 0) by discriminate.
  intros c1 c2 c3 c4 c5 c6.
  pose proof (eq_conv_layer_shape ["128"; "conv1"] _ 3 128 2 it _ _ _ _ SX two
                (block_fits _ h1) (block_fits _ w1)) as S1.
  change (eq_conv_out_dim 3 2) with down_dim in S1.
  pose proof (eq_conv_layer_shape ["128"; "conv2"] _ 3 128 2 it _ _ _ _ S1 two
                (block_fits _ h2) (block_fits _ w2)) as S2.
  change (eq_conv_out_dim 3 2) with down_dim in S2.
  pose proof (eq_conv_layer_shape ["256"; "conv3"] _ 3 256 2 it _ _ _ _ S2 two
                (block_fits _ h3) (block_fits _ w3)) as S3.
  change (eq_conv_out_dim 3 2) with down_dim in S3.
  pose proof (eq_conv_layer_shape ["256"; "conv4"] _ 3 256 2 it _ _ _ _ S3 two
                (block_fits _ h4) (block_fits _ w4)) as S4.
  change (eq_conv_out_dim 3 2) with down_dim in S4.
  pose proof (eq_conv_layer_shape ["512"; "conv5"] _ 3 512 2 it _ _ _ _ S4 two
                (block_fits _ h5) (block_fits _ w5)) as S5.
  change (eq_conv_out_dim 3 2) with down_dim in S5.
  pose proof (eq_conv_layer_shape ["512"; "conv6"] _ 3 512 2 it _ _ _ _ S5 two
                (block_fits _ h6) (block_fits _ w6)) as S6.
  change (eq_conv_out_dim 3 2) with down_dim in S6.
  rewrite !side6_dim in S6.
  repeat split; assumption.
Qed.

Lemma get_tensor_shapes num_classes images_ keep_prob_ is_training_ train_phase b h w d :
  get_shape images_ = Some [b; h; w; Some d] ->
  dim_le 129 h -> dim_le 129 w ->
  get_shape (fc1_tensor d images_ is_training_ train_phase)
  = Some [b; option_map out_side h; option_map out_side w; Some 2048]
  /\ get_shape (dropout1_tensor d images_ keep_prob_ is_training_ train_phase)
     = Some [b; option_map out_side h; option_map out_side w; Some 2048]
  /\ get_shape (fc2_tensor d images_ keep_prob_ is_training_ train_phase)
     = Some [b; option_map out_side h; option_map out_side w; Some 2048]
  /\ get_shape (dropout2_tensor d images_ keep_prob_ is_training_ train_phase)
     = Some [b; option_map out_side h; option_map out_side w; Some 2048]
  /\ get_shape (get_tensor num_classes d images_ keep_prob_ is_training_ train_phase)
     = Some [b; option_map out_side h; option_map out_side w; Some num_classes].
Proof.
  intros SX Hh Hw.
  assert (Gh := side6_dim_large _ Hh). assert (Gw := side6_dim_large _ Hw).
  assert (one : 1 <> 0) by discriminate.
  destruct (conv_shapes images_ (get_is_training is_training_ train_phase) b h w d SX)
    as (_ & _ & _ & _ & _ & S6);
    [apply (dim_le_trans 1 129); [lia|assumption]
    |apply (dim_le_trans 1 129); [lia|assumption]|].
  pose proof (conv_layer_shape ["fc1"] _ 3 3 512 2048 1 _ _ _ S6 one Gh Gw) as SF1.
  rewrite !valid_out_3x3 in SF1 by assumption.
  assert (SD1 : get_shape (dropout1_tensor d images_ keep_prob_ is_training_ train_phase)
                = Some [b; option_map out_side h; option_map out_side w; Some 2048]).
  { unfold dropout1_tensor. destruct train_phase; exact SF1. }
  pose proof (out_side_ge1 _ Gh) as Lh. pose proof (out_side_ge1 _ Gw) as Lw.
  pose proof (conv_layer_shape ["fc2"] _ 1 1 2048 2048 1 _ _ _ SD1 one Lh Lw) as SF2.
  rewrite !valid_out_1x1 in SF2 by assumption.
  assert (SD2 : get_shape (dropout2_tensor d images_ keep_prob_ is_training_ train_phase)
                = Some [b; option_map out_side h; option_map out_side w; Some 2048]).
  { unfold dropout2_tensor. destruct train_phase; exact SF2. }
  pose proof (conv_layer_shape ["softmax_linear"] _ 1 1 2048 num_classes 1 _ _ _
                SD2 one Lh Lw) as SO.
  rewrite !valid_out_1x1 in SO by assumption.
  repeat split; assumption.
Qed.

(** ** Running the builders step by step *)

Lemma bind_runs {A B} (m : M A) (f : A -> M B) s a s1 r :
  m s = Ok a s1 -> f a s1 = r -> bind m f s = r.
Proof. unfold bind. now intros ->. Qed.

Lemma ret_runs {A} (a : A) s : ret a s = Ok a s.
Proof. reflexivity. Qed.

Lemma print_runs o g out err fs cs :
  print o (State g out err fs cs) = Ok tt (State g (out ++ [o]) err fs cs).
Proof. reflexivity. Qed.

Lemma scope_runs {A} name (body : M A) sc phs vs cols sums out err fs cs
      a sc' phs' vs' cols' sums' out' err' fs' cs' :
  body (State (Graph (sc ++ [name]) phs vs cols sums) out err fs cs)
  = Ok a (State (Graph sc' phs' vs' cols' sums') out' err' fs' cs') ->
  tf_variable_scope name body (State (Graph sc phs vs cols sums) out err fs cs)
  = Ok a (State (Graph sc phs' vs' cols' sums') out' err' fs' cs').
Proof.
  intros H. unfold tf_variable_scope, set_graph, set_scope.
  cbn [default_graph g_scope g_placeholders g_variables g_collections g_summaries
       stdout stderr files calls].
  now rewrite H.
Qed.

Lemma dropout_runs x keep_prob name shp sc phs vs cols sums out err fs cs :
  get_shape x = Some shp ->
  tf_nn_dropout x keep_prob name (State (Graph sc phs vs cols sums) out err fs cs)
  = Ok (Dropout x keep_prob (scope_name sc name))
       (State (Graph sc phs vs cols sums) out err fs cs).
Proof.
  intros H. unfold tf_nn_dropout. plumb.
  now rewrite (create_op_ok (Dropout _ _ _) shp H).
Qed.

Lemma fresh_names_split vs X Y :
  fresh_names (map v_name vs) (map v_name (X ++ Y)) = true ->
  fresh_names (map v_name vs) (map v_name X) = true
  /\ fresh_names (map v_name (vs ++ X)) (map v_name Y) = true.
Proof.
  rewrite !map_app, fresh_names_app. apply andb_prop.
Qed.

Lemma dim_in_134_le d n :
  4 <= n -> n < 2 ^ 53 ->
  utils.dim_in (Some d) [1; 3; 4] = true -> d <= n /\ n < 2 ^ 53.
Proof.
  intros H4 Hn H. split; [|exact Hn].
  unfold utils.dim_in in H; simpl in H.
  repeat (apply orb_prop in H; destruct H as [H|H]);
    try (apply N.eqb_eq in H; subst d; lia); discriminate.
Qed.

Lemma xavier_conv2d_defined kh kw kd kn :
  1 <= kh -> 1 <= kw -> 1 <= kd + kn ->
  initializer_divides_by_zero xavier_initializer_conv2d [kh; kw; kd; kn] = false.
Proof.
  intros Hh Hw Hn. unfold initializer_divides_by_zero, fans, num_elements.
  cbn [rev app fst snd fold_right]. apply N.eqb_neq.
  rewrite <- N.mul_add_distr_r, N.mul_1_r.
  intros E. apply N.eq_mul_0 in E. destruct E as [E|E]; [lia|].
  apply N.eq_mul_0 in E. lia.
Qed.

(** The side conditions of the layers of [get]: constant kernel sides and
    kernel counts. *)
Ltac layer_side_conditions :=
  unfold KERNEL_SIDE, LAST_KERNEL_SIDE, FC_NEURONS;
  first [ assumption
        | apply xavier_conv2d_defined; lia
        | apply dim_in_134_le; [lia | reflexivity]
        | apply N.leb_le; reflexivity
        | let H := fresh in intros H; vm_compute in H; discriminate H ].

Tactic Notation "apply_layer" open_constr(t) := (apply t; layer_side_conditions).

Ltac bind_step tac := eapply bind_runs; [tac | cbv beta].
Ltac in_scope tac := eapply scope_runs; cbn [app]; tac.

(** ** [get] on a graph where its variable names are new *)

Lemma get_run num_classes images_ keep_prob_ is_training_ train_phase
      phs vs cols sums out err fs cs b h w d :
  get_shape images_ = Some [b; h; w; Some d] ->
  dim_le 129 h -> dim_le 129 w ->
  fresh_names (map v_name vs) (map v_name (get_variables num_classes d)) = true ->
  exists st',
    get num_classes images_ keep_prob_ is_training_ train_phase
        (State (Graph [] phs vs cols sums) out err fs cs)
    = Ok (get_tensor num_classes d images_ keep_prob_ is_training_ train_phase) st'
    /\ g_scope (default_graph st') = []
    /\ g_placeholders (default_graph st') = phs
    /\ g_variables (default_graph st') = vs ++ get_variables num_classes d
    /\ g_collections (default_graph st')
       = collection_add_all REQUIRED_NON_TRAINABLES get_required cols
    /\ stderr st' = err /\ files st' = fs /\ calls st' = cs.
Proof.
  intros SX Hh Hw G.
  assert (Gh := side6_dim_large _ Hh). assert (Gw := side6_dim_large _ Hw).
  assert (h1 : dim_le 1 h) by (apply (dim_le_trans 1 129); [lia|assumption]).
  assert (w1 : dim_le 1 w) by (apply (dim_le_trans 1 129); [lia|assumption]).
  pose proof (down_dim_ge1 _ h1) as h2. pose proof (down_dim_ge1 _ h2) as h3.
  pose proof (down_dim_ge1 _ h3) as h4. pose proof (down_dim_ge1 _ h4) as h5.
  pose proof (down_dim_ge1 _ h5) as h6.
  pose proof (down_dim_ge1 _ w1) as w2. pose proof (down_dim_ge1 _ w2) as w3.
  pose proof (down_dim_ge1 _ w3) as w4. pose proof (down_dim_ge1 _ w4) as w5.
  pose proof (down_dim_ge1 _ w5) as w6.
  assert (two : 2 <> 0) by discriminate.
  assert (one : 1 <> 0) by discriminate.
  pose proof (out_side_ge1 _ Gh) as Lh. pose proof (out_side_ge1 _ Gw) as Lw.
  destruct (conv_shapes images_ (get_is_training is_training_ train_phase) b h w d
                        SX h1 w1) as (S1 & S2 & S3 & S4 & S5 & S6).
  destruct (get_tensor_shapes num_classes images_ keep_prob_ is_training_ train_phase
                              b h w d SX Hh Hw) as (SF1 & SD1 & SF2 & SD2 & _).
  unfold get_variables in G.
  apply fresh_names_split in G. destruct G as [F1 G].
  apply fresh_names_split in G. destruct G as [F2 G].
  apply fresh_names_split in G. destruct G as [F3 G].
  apply fresh_names_split in G. destruct G as [F4 G].
  apply fresh_names_split in G. destruct G as [F5 G].
  apply fresh_names_split in G. destruct G as [F6 G].
  change (fresh_names
            (map v_name
               ((((((vs ++ eq_conv_layer_variables ["128"; "conv1"] 3 d 128)
                    ++ eq_conv_layer_variables ["128"; "conv2"] 3 128 128)
                   ++ eq_conv_layer_variables ["256"; "conv3"] 3 128 256)
                  ++ eq_conv_layer_variables ["256"; "conv4"] 3 256 256)
                 ++ eq_conv_layer_variables ["512"; "conv5"] 3 256 512)
                ++ eq_conv_layer_variables ["512"; "conv6"] 3 512 512))
            (map v_name
               ([conv_layer_kernels ["fc1"] [3; 3; 512; 2048]; conv_layer_bias ["fc1"] 2048]
                ++ [conv_layer_kernels ["fc2"] [1; 1; 2048; 2048];
                    conv_layer_bias ["fc2"] 2048]
                ++ [conv_layer_kernels ["softmax_linear"] [1; 1; 2048; num_classes];
                    conv_layer_bias ["softmax_linear"] num_classes])) = true) in G.
  apply fresh_names_split in G. destruct G as [F7 G].
  apply fresh_names_split in G. destruct G as [F8 F9].
  unfold get_tensor, dropout2_tensor, fc2_tensor, dropout1_tensor, fc1_tensor,
    conv6_tensor, conv5_tensor, conv4_tensor, conv3_tensor, conv2_tensor, conv1_tensor
    in *.
  cbv zeta in *.
  set (it := get_is_training is_training_ train_phase) in *.
  assert (Eit : (if negb train_phase then ConstBool false else is_training_) = it)
    by reflexivity.
  clearbody it.
  destruct train_phase; cbn [negb] in *; eexists; (split; [unfold get; cbv zeta;
    change (2 ^ 7) with 128; change (128 * 2) with 256; change (256 * 2) with 512;
    change (str 128) with "128"; change (str 256) with "256";
    change (str 512) with "512";
    change KERNEL_SIDE with 3; change LAST_KERNEL_SIDE with 3;
    change FC_NEURONS with 2048; cbn [negb]; rewrite ?Eit;
    bind_step ltac:(apply print_runs);
    bind_step ltac:(
      in_scope ltac:(
        bind_step ltac:(in_scope ltac:(
          apply_layer (eq_conv_layer_run _ _ _ _ _ _ _ _ _ _ _ _ _ _ _ _ _ _ SX two
                   (block_fits _ h1) (block_fits _ w1) F1)));
        bind_step ltac:(apply print_runs);
        bind_step ltac:(in_scope ltac:(
          apply_layer (eq_conv_layer_run _ _ _ _ _ _ _ _ _ _ _ _ _ _ _ _ _ _ S1 two
                   (block_fits _ h2) (block_fits _ w2) F2)));
        bind_step ltac:(apply print_runs);
        apply ret_runs));
    bind_step ltac:(
      in_scope ltac:(
        bind_step ltac:(in_scope ltac:(
          apply_layer (eq_conv_layer_run _ _ _ _ _ _ _ _ _ _ _ _ _ _ _ _ _ _ S2 two
                   (block_fits _ h3) (block_fits _ w3) F3)));
        bind_step ltac:(apply print_runs);
        bind_step ltac:(in_scope ltac:(
          apply_layer (eq_conv_layer_run _ _ _ _ _ _ _ _ _ _ _ _ _ _ _ _ _ _ S3 two
                   (block_fits _ h4) (block_fits _ w4) F4)));
        bind_step ltac:(apply print_runs);
        apply ret_runs));
    bind_step ltac:(
      in_scope ltac:(
        bind_step ltac:(in_scope ltac:(
          apply_layer (eq_conv_layer_run _ _ _ _ _ _ _ _ _ _ _ _ _ _ _ _ _ _ S4 two
                   (block_fits _ h5) (block_fits _ w5) F5)));
        bind_step ltac:(apply print_runs);
        bind_step ltac:(in_scope ltac:(
          apply_layer (eq_conv_layer_run _ _ _ _ _ _ _ _ _ _ _ _ _ _ _ _ _ _ S5 two
                   (block_fits _ h6) (block_fits _ w6) F6)));
        bind_step ltac:(apply print_runs);
        apply ret_runs)) | ]).
  - bind_step ltac:(
      in_scope ltac:(
        bind_step ltac:(
          apply_layer (conv_layer_fresh_run _ _ _ _ _ _ _ _ _ _ _ _ _ _ _ _ _ _ _ F7
                   (conv2d_valid_shape _ (conv_layer_kernels ["fc1"] [3; 3; 512; 2048])
                      3 3 512 2048 1 _ _ _ S6 eq_refl one Gh Gw)));
        eapply dropout_runs; exact SF1)).
    bind_step ltac:(apply print_runs).
    bind_step ltac:(
      in_scope ltac:(
        bind_step ltac:(
          apply_layer (conv_layer_fresh_run _ _ _ _ _ _ _ _ _ _ _ _ _ _ _ _ _ _ _ F8
                   (conv2d_valid_shape _ (conv_layer_kernels ["fc2"] [1; 1; 2048; 2048])
                      1 1 2048 2048 1 _ _ _ SD1 eq_refl one Lh Lw)));
        eapply dropout_runs; exact SF2)).
    bind_step ltac:(apply print_runs).
    bind_step ltac:(
      in_scope ltac:(
        apply_layer (conv_layer_fresh_run _ _ _ _ _ _ _ _ _ _ _ _ _ _ _ _ _ _ _ F9
                 (conv2d_valid_shape _
                    (conv_layer_kernels ["softmax_linear"] [1; 1; 2048; num_classes])
                    1 1 2048 num_classes 1 _ _ _ SD2 eq_refl one Lh Lw)))).
    bind_step ltac:(apply print_runs).
    apply ret_runs.
  - cbn [default_graph g_scope g_placeholders g_variables g_collections
         stderr files calls].
    unfold get_variables, get_required, collection_add_all.
    rewrite !fold_left_app, <- !app_assoc.
    repeat split; reflexivity.
  - bind_step ltac:(
      in_scope ltac:(
        bind_step ltac:(
          apply_layer (conv_layer_fresh_run _ _ _ _ _ _ _ _ _ _ _ _ _ _ _ _ _ _ _ F7
                   (conv2d_valid_shape _ (conv_layer_kernels ["fc1"] [3; 3; 512; 2048])
                      3 3 512 2048 1 _ _ _ S6 eq_refl one Gh Gw)));
        apply ret_runs)).
    bind_step ltac:(apply print_runs).
    bind_step ltac:(
      in_scope ltac:(
        bind_step ltac:(
          apply_layer (conv_layer_fresh_run _ _ _ _ _ _ _ _ _ _ _ _ _ _ _ _ _ _ _ F8
                   (conv2d_valid_shape _ (conv_layer_kernels ["fc2"] [1; 1; 2048; 2048])
                      1 1 2048 2048 1 _ _ _ SD1 eq_refl one Lh Lw)));
        apply ret_runs)).
    bind_step ltac:(apply print_runs).
    bind_step ltac:(
      in_scope ltac:(
        apply_layer (conv_layer_fresh_run _ _ _ _ _ _ _ _ _ _ _ _ _ _ _ _ _ _ _ F9
                 (conv2d_valid_shape _
                    (conv_layer_kernels ["softmax_linear"] [1; 1; 2048; num_classes])
                    1 1 2048 num_classes 1 _ _ _ SD2 eq_refl one Lh Lw)))).
    bind_step ltac:(apply print_runs).
    apply ret_runs.
  - cbn [default_graph g_scope g_placeholders g_variables g_collections
         stderr files calls].
    unfold get_variables, get_required, collection_add_all.
    rewrite !fold_left_app, <- !app_assoc.
    repeat split; reflexivity.
Qed.








Section RunExt.
Variable V : Type.
Variables feed1 feed2 : string -> V.
Variable weights : variable -> V.
Variable sem_bool : bool -> V.
Variable sem_pad : V -> list (Z * Z) -> V.
Variable sem_conv2d : V -> V -> list N -> padding -> V.
Variable sem_add : V -> V -> V.
Variable sem_relu : V -> V.
Variable sem_batch_norm : V -> V -> option V -> option V -> V -> V ->
                          float_lit -> float_lit -> V.
Variable sem_dropout : V -> V -> V.
Variable sem_reshape : V -> list N -> V.
Variable sem_squeeze : V -> list N -> V.
Variable sem_cast : V -> dtype -> V.
Variable sem_xent : V -> V -> V.
Variable sem_mean : V -> V.


End RunExt.




Lemma variables_to_save_run addlist st :
  variables_to_save addlist st
  = Ok (filter v_trainable (g_variables (default_graph st))
        ++ get_collection REQUIRED_NON_TRAINABLES (g_collections (default_graph st))
        ++ addlist) st.
Proof. reflexivity. Qed.



(** ** [define_model] and [export_model] *)

Lemma define_model_run num_classes train_phase out err fs cs :
  exists st',
    define_model num_classes train_phase (State empty_graph out err fs cs)
    = Ok (Placeholder bool_ [] "is_training_", Placeholder float32 [] "keep_prob_",
          Placeholder float32 [None; Some INPUT_SIDE; Some INPUT_SIDE; Some INPUT_DEPTH]
                      "images_",
          get_tensor num_classes INPUT_DEPTH
            (Placeholder float32 [None; Some INPUT_SIDE; Some INPUT_SIDE; Some INPUT_DEPTH]
                         "images_")
            (Placeholder float32 [] "keep_prob_") (Placeholder bool_ [] "is_training_")
            train_phase) st'
    /\ g_scope (default_graph st') = []
    /\ g_placeholders (default_graph st') = define_model_placeholders
    /\ g_variables (default_graph st') = get_variables num_classes INPUT_DEPTH
    /\ g_collections (default_graph st')
       = collection_add_all REQUIRED_NON_TRAINABLES get_required []
    /\ stderr st' = err /\ files st' = fs /\ calls st' = cs.
Proof.
  destruct (get_run num_classes
              (Placeholder float32 [None; Some INPUT_SIDE; Some INPUT_SIDE; Some INPUT_DEPTH]
                           "images_")
              (Placeholder float32 [] "keep_prob_") (Placeholder bool_ [] "is_training_")
              train_phase define_model_placeholders [] [] [] out err fs cs
              None (Some INPUT_SIDE) (Some INPUT_SIDE) INPUT_DEPTH)
    as (st' & E & R);
    [reflexivity | cbn; unfold INPUT_SIDE; lia | cbn; unfold INPUT_SIDE; lia
     | vm_compute; reflexivity |].
  exists st'. split; [|exact R].
  unfold define_model, tf_placeholder, empty_graph. plumb.
  change (scope_name [] "is_training_") with "is_training_".
  change (scope_name [] "keep_prob_") with "keep_prob_".
  change (scope_name [] "images_") with "images_".
  cbn [app]. fold define_model_placeholders.
  rewrite E. reflexivity.
Qed.

Lemma add_file_in p fs : existsb (String.eqb p) (add_file p fs) = true.
Proof.
  unfold add_file. destruct (existsb (String.eqb p) fs) eqn:E; [exact E|].
  rewrite existsb_app. cbn. now rewrite String.eqb_refl, orb_true_r.
Qed.

Lemma add_file_keep q p fs :
  existsb (String.eqb q) fs = true -> existsb (String.eqb q) (add_file p fs) = true.
Proof.
  intros H. unfold add_file. destruct (existsb (String.eqb p) fs); [exact H|].
  rewrite existsb_app, H. reflexivity.
Qed.

Ltac plumb_io :=
  cbv beta iota zeta delta
    [bind ret raise get_graph modify_graph set_graph
     tf_all_variables record_call with_session try_except_ValueError
     print_stderr print tf_train_write_graph freeze_graph create_file
     with_new_default_graph os_path_exists
     default_graph stdout stderr files calls
     g_scope g_placeholders g_variables g_collections g_summaries].

Lemma export_model_skips restore_outcome write_graph_outcome freeze_graph_outcome
      num_classes session_dir input_checkpoint model_filename st :
  existsb (String.eqb model_filename) (files st) = true ->
  export_model restore_outcome write_graph_outcome freeze_graph_outcome
               num_classes session_dir input_checkpoint model_filename st
  = Ok PyNone (State (default_graph st)
                     (stdout st ++ [OutText (skip_message model_filename)])
                     (stderr st) (files st) (calls st)).
Proof.
  intros H. destruct st as [g0 out err fs cs]. cbn [files] in H.
  unfold export_model. plumb_io. rewrite H. reflexivity.
Qed.

Lemma export_model_restore_fails restore_outcome write_graph_outcome freeze_graph_outcome
      num_classes session_dir input_checkpoint model_filename st msg :
  existsb (String.eqb model_filename) (files st) = false ->
  restore_outcome (checkpoint_path session_dir input_checkpoint) = Some (ValueError msg) ->
  exists st' g tensors sm,
    export_model restore_outcome write_graph_outcome freeze_graph_outcome
                 num_classes session_dir input_checkpoint model_filename st
    = Ok (PyInt (-1)) st'
    /\ define_model num_classes false
         (State empty_graph (stdout st) (stderr st) (files st) (calls st))
       = Ok tensors sm
    /\ g = default_graph sm
    /\ default_graph st' = default_graph st
    /\ files st' = files st
    /\ stderr st' = stderr st ++ ["[E] Unable to restore from checkpoint"]
    /\ calls st' = calls st ++ [SaverCreate (g_variables g); SessionOpen true;
                                SaverRestore (checkpoint_path session_dir input_checkpoint);
                                SessionClose].
Proof.
  intros H R. destruct st as [g0 out err fs cs]. cbn [files] in H.
  destruct (define_model_run num_classes false out err fs cs)
    as (sm & E & _ & _ & _ & _ & Xe & Xf & Xc).
  unfold checkpoint_path in R.
  destruct sm as [gm outm errm fsm csm]. cbn [stderr files calls] in Xe, Xf, Xc.
  subst errm fsm csm.
  do 2 eexists. exists (Placeholder bool_ [] "is_training_", Placeholder float32 [] "keep_prob_",
          Placeholder float32 [None; Some INPUT_SIDE; Some INPUT_SIDE; Some INPUT_DEPTH]
                      "images_",
          get_tensor num_classes INPUT_DEPTH
            (Placeholder float32 [None; Some INPUT_SIDE; Some INPUT_SIDE; Some INPUT_DEPTH]
                         "images_")
            (Placeholder float32 [] "keep_prob_") (Placeholder bool_ [] "is_training_")
            false), (State gm outm err fs cs).
  split.
  - unfold export_model. plumb_io. rewrite H. cbn [negb]. rewrite E.
    unfold saver_restore. plumb_io. rewrite R. reflexivity.
  - cbn [default_graph stdout stderr files calls].
    split; [exact E|]. split; [reflexivity|]. split; [reflexivity|].
    split; [reflexivity|]. split; [reflexivity|].
    unfold checkpoint_path. now rewrite <- !app_assoc.
Qed.

(** The export when the model file does not exist and neither the restore
    nor the writing of the graph definition raises: the freezing utility is
    called, and its outcome decides the result. *)
Lemma export_model_reaches_freeze restore_outcome write_graph_outcome freeze_graph_outcome
      num_classes session_dir input_checkpoint model_filename st :
  existsb (String.eqb model_filename) (files st) = false ->
  restore_outcome (checkpoint_path session_dir input_checkpoint) = None ->
  write_graph_outcome session_dir "skeleton.pbtxt" = None ->
  exists g tensors sm st',
    define_model num_classes false
      (State empty_graph (stdout st) (stderr st) (files st) (calls st))
    = Ok tensors sm
    /\ g = default_graph sm
    /\ calls st' = calls st
                   ++ export_calls g session_dir input_checkpoint model_filename
    /\ default_graph st' = default_graph st
    /\ stderr st' = stderr st
    /\ match freeze_graph_outcome
               (String.append session_dir "/skeleton.pbtxt")
               (checkpoint_path session_dir input_checkpoint) model_filename with
       | Frozen =>
           export_model restore_outcome write_graph_outcome freeze_graph_outcome
                        num_classes session_dir input_checkpoint model_filename st
           = Ok PyNone st'
           /\ files st' = add_file model_filename
                                   (add_file (os_path_join session_dir "skeleton.pbtxt")
                                             (files st))
       | NotFrozen =>
           export_model restore_outcome write_graph_outcome freeze_graph_outcome
                        num_classes session_dir input_checkpoint model_filename st
           = Ok PyNone st'
           /\ files st' = add_file (os_path_join session_dir "skeleton.pbtxt") (files st)
       | FreezeRaises e =>
           export_model restore_outcome write_graph_outcome freeze_graph_outcome
                        num_classes session_dir input_checkpoint model_filename st
           = Raise e st'
           /\ files st' = add_file (os_path_join session_dir "skeleton.pbtxt") (files st)
       end.
Proof.
  intros H R W. destruct st as [g0 out err fs cs]. cbn [files] in H.
  destruct (define_model_run num_classes false out err fs cs)
    as (sm & E & _ & _ & _ & _ & Xe & Xf & Xc).
  unfold checkpoint_path in *.
  destruct sm as [gm outm errm fsm csm]. cbn [stderr files calls] in Xe, Xf, Xc.
  subst errm fsm csm.
  exists gm, (Placeholder bool_ [] "is_training_", Placeholder float32 [] "keep_prob_",
          Placeholder float32 [None; Some INPUT_SIDE; Some INPUT_SIDE; Some INPUT_DEPTH]
                      "images_",
          get_tensor num_classes INPUT_DEPTH
            (Placeholder float32 [None; Some INPUT_SIDE; Some INPUT_SIDE; Some INPUT_DEPTH]
                         "images_")
            (Placeholder float32 [] "keep_prob_") (Placeholder bool_ [] "is_training_")
            false), (State gm outm err fs cs).
  cbn [default_graph stdout stderr files calls].
  destruct (freeze_graph_outcome _ _ _) as [| |e] eqn:F;
    eexists; (split; [exact E|]); (split; [reflexivity|]);
    (split; [|split; [|split; [|split]]]);
    try (unfold export_model; plumb_io; rewrite H; cbn [negb]; rewrite E;
         unfold saver_restore; plumb_io; rewrite R; plumb_io; rewrite W; plumb_io;
         rewrite F; plumb_io; reflexivity);
    cbn [default_graph stdout stderr files calls];
    try reflexivity;
    unfold export_calls, checkpoint_path; now rewrite <- !app_assoc.
Qed.

(** Sizes with which [eq_conv_layer] creates its variables and summaries. *)
Lemma layer_sizes k n d :
  1 <= k -> k < 2 ^ 31 -> 1 <= n -> n < 2 ^ 31 ->
  (d = 1 \/ d = 3 \/ d = 4 -> d <= n) ->
  k <= 2 ^ 53
  /\ initializer_divides_by_zero xavier_initializer_conv2d [k; k; d; n] = false
  /\ (utils.dim_in (Some d) [1; 3; 4] = true -> d <= n /\ n < 2 ^ 53).
Proof.
  intros Hk1 Hk Hn1 Hn Hd.
  split; [apply N.lt_le_incl, (N.lt_trans _ _ _ Hk); reflexivity|].
  split; [apply xavier_conv2d_defined; lia|].
  intros Hin. split.
  - apply Hd. unfold utils.dim_in in Hin. simpl in Hin.
    repeat (apply orb_prop in Hin; destruct Hin as [Hin|Hin]);
      try (apply N.eqb_eq in Hin; subst d; tauto); discriminate.
  - apply (N.lt_trans _ _ _ Hn). reflexivity.
Qed.

(** ** The optimizer's variables *)

Lemma fold_add_variable l g :
  g_variables (fold_left (fun g v => add_variable v g) l g) = g_variables g ++ l.
Proof.
  revert g. induction l as [|v r IH]; intros g; cbn [fold_left].
  - now rewrite app_nil_r.
  - rewrite IH. cbn [add_variable g_variables]. now rewrite <- app_assoc.
Qed.

Lemma adam_slots_length sc vars :
  length (adam_slots sc vars) = (2 + 2 * length vars)%nat.
Proof.
  unfold adam_slots. cbn [app length]. do 2 f_equal.
  induction vars as [|v r IH]; cbn [flat_map app length]; [reflexivity|].
  rewrite IH. lia.
Qed.

Lemma adam_slots_not_trainable sc vars : filter v_trainable (adam_slots sc vars) = [].
Proof.
  unfold adam_slots. cbn [app filter v_trainable].
  induction vars as [|v r IH]; cbn [flat_map app filter v_trainable]; [reflexivity|].
  exact IH.
Qed.

(** * Properties of the specification *)













(** C6: [loss] squeezes the two spatial dimensions of the logits, brings
    the labels to int64 (a cast, unless they are int64 already) and returns
    the mean, over the batch, of the sparse softmax cross-entropy of the two
    (also recorded as a scalar summary).  [train] returns the operation
    [minimize] builds for an Adam optimizer with learning rate
    [LEARNING_RATE] = 1e-5: the Adam updates, along the gradient of the loss,
    of the trainable variables the loss depends on, followed by the addition
    of 1 to [global_step]; the optimizer adds its own, non-trainable,
    variables to the graph.  [minimize] needs a trainable variable with a
    gradient. *)
Theorem loss_and_train_wiring :
  (forall logits labels st b c b',
      get_shape logits = Some [b; Some 1; Some 1; Some c] ->
      get_shape labels = Some [b'] ->
      dim_compatible b b' = true ->
      tensor_dtype logits = float32 ->
      exists mean st' per_example labels64 name1 name2,
        loss logits labels st = Ok mean st'
        /\ labels64 = (if dtype_eqb (tensor_dtype labels) int64 then labels
                       else Cast labels int64)
        /\ per_example
           = SparseSoftmaxCrossEntropyWithLogits (Squeeze logits [1; 2]) labels64 name1
        /\ mean = ReduceMean per_example name2
        /\ get_shape (Squeeze logits [1; 2]) = Some [b; Some c]
        /\ (exists batch, get_shape per_example = Some [batch])
        /\ get_shape mean = Some []
        /\ g_summaries (default_graph st')
           = g_summaries (default_graph st)
             ++ [ScalarSummary "loss/mean_cross_entropy" mean])
  /\
  (forall loss_op global_step st,
      tensor_dtype loss_op = float32 ->
      existsb (has_gradient loss_op)
              (filter v_trainable (g_variables (default_graph st))) = true ->
      exists op st' updated slots,
        train loss_op global_step st = Ok op st'
        /\ updated = filter (has_gradient loss_op)
                            (filter v_trainable (g_variables (default_graph st)))
        /\ op = AssignAdd global_step 1
                          (map (ApplyGradient (AdamOptimizer LEARNING_RATE) loss_op)
                               updated)
        /\ LEARNING_RATE = FloatLit 1 (-5)
        /\ g_variables (default_graph st') = g_variables (default_graph st) ++ slots
        /\ length slots = (2 + 2 * length updated)%nat
        /\ filter v_trainable slots = []
        /\ g_scope (default_graph st') = g_scope (default_graph st)).
Proof.
  split.
  - intros logits labels st b c b' SL SY Hb _.
    destruct st as [[sc phs vs cols sums] out err fs cs].
    assert (SQ : get_shape (Squeeze logits [1; 2]) = Some [b; Some c]).
    { cbn [get_shape]. rewrite SL. reflexivity. }
    set (l64 := if dtype_eqb (tensor_dtype labels) int64 then labels
                else Cast labels int64).
    assert (SC : get_shape l64 = Some [b']).
    { unfold l64. destruct (dtype_eqb _ _); exact SY. }
    set (pe := SparseSoftmaxCrossEntropyWithLogits
                 (Squeeze logits [1; 2]) l64
                 (scope_name (sc ++ ["loss"]) "cross_entropy_per_example")).
    assert (SP : get_shape pe
                 = Some [match b with Some _ => b | None => b' end]).
    { unfold pe. change (get_shape (SparseSoftmaxCrossEntropyWithLogits ?l ?y _))
        with (match get_shape l, get_shape y with
              | Some ls, Some ys => xent_shape ls ys
              | _, _ => None
              end).
      rewrite SQ, SC. unfold xent_shape. now rewrite Hb. }
    exists (ReduceMean pe (scope_name (sc ++ ["loss"]) "mean_cross_entropy")).
    eexists. exists pe, l64. do 2 eexists.
    split.
    + unfold loss, tf_squeeze, tf_cast, tf_nn_sparse_softmax_cross_entropy_with_logits,
        tf_reduce_mean. plumb.
      rewrite (create_op_ok _ _ SQ). plumb.
      assert (EC : forall s0,
                 (if dtype_eqb (tensor_dtype labels) int64 then ret labels
                  else create_op (Cast labels int64)) s0 = Ok l64 s0).
      { intros s0. unfold l64. destruct (dtype_eqb _ _); [reflexivity|].
        now rewrite (create_op_ok (Cast labels int64) [b'] SY). }
      rewrite EC.
      fold pe. rewrite (create_op_ok _ _ SP). plumb.
      rewrite (create_op_ok (ReduceMean _ _) []) by reflexivity. plumb.
      reflexivity.
    + cbn [default_graph g_scope g_summaries].
      repeat split; try reflexivity; try assumption.
      eexists; exact SP.
  - intros loss_op global_step st _ H.
    destruct st as [[sc phs vs cols sums] out err fs cs].
    cbn [default_graph g_variables g_scope] in H |- *.
    destruct (filter v_trainable vs) as [|v0 tr] eqn:Etr; [discriminate H|].
    destruct (filter (has_gradient loss_op) (v0 :: tr)) as [|u0 up] eqn:Eup.
    { exfalso. apply existsb_exists in H. destruct H as (v & Hin & Hv).
      assert (Hf : In v (filter (has_gradient loss_op) (v0 :: tr)))
        by (apply filter_In; split; assumption).
      rewrite Eup in Hf. exact Hf. }
    exists (AssignAdd global_step 1
              (map (ApplyGradient (AdamOptimizer LEARNING_RATE) loss_op) (u0 :: up))).
    eexists. exists (u0 :: up), (adam_slots (sc ++ ["train"]) (u0 :: up)).
    split.
    + unfold train, optimizer_minimize. plumb. rewrite Etr, Eup. plumb.
      reflexivity.
    + cbn [default_graph g_variables g_scope].
      split; [reflexivity|]. split; [reflexivity|]. split; [reflexivity|].
      split; [apply fold_add_variable|].
      split; [apply adam_slots_length|].
      split; [apply adam_slots_not_trainable|].
      reflexivity.
Qed.

Lemma loss_and_train_wiring_witness :
  (get_shape (Placeholder float32 [None; Some 1; Some 1; Some 10] "logits")
   = Some [None; Some 1; Some 1; Some 10]
   /\ get_shape (Placeholder int64 [None] "labels") = Some [None]
   /\ dim_compatible None None = true
   /\ tensor_dtype (Placeholder float32 [None; Some 1; Some 1; Some 10] "logits") = float32
   /\ tensor_dtype (ReduceMean (VarRead example_weight) "loss") = float32
   /\ existsb (has_gradient (ReduceMean (VarRead example_weight) "loss"))
              (filter v_trainable (g_variables (default_graph example_trainable_state)))
      = true)
  /\ (exists mean st',
         loss (Placeholder float32 [None; Some 1; Some 1; Some 10] "logits")
              (Placeholder int64 [None] "labels") initial_state = Ok mean st'
         /\ get_shape mean = Some [])
  /\ (exists st',
         train (ReduceMean (VarRead example_weight) "loss") example_global_step
               example_trainable_state
         = Ok (AssignAdd example_global_step 1
                 [ApplyGradient (AdamOptimizer (FloatLit 1 (-5)))
                                (ReduceMean (VarRead example_weight) "loss")
                                example_weight]) st').
Proof.
  split; [repeat split; reflexivity|].
  split.
  - destruct (proj1 loss_and_train_wiring
                    (Placeholder float32 [None; Some 1; Some 1; Some 10] "logits")
                    (Placeholder int64 [None] "labels") initial_state None 10 None
                    eq_refl eq_refl eq_refl eq_refl)
      as (mean & st' & pe & l64 & n1 & n2 & E & _ & _ & _ & _ & _ & S & _).
    exists mean, st'. split; assumption.
  - destruct (proj2 loss_and_train_wiring (ReduceMean (VarRead example_weight) "loss")
                    example_global_step example_trainable_state eq_refl eq_refl)
      as (op & st' & updated & slots & E & Eu & Eo & _).
    exists st'. rewrite E. rewrite Eo, Eu. reflexivity.
Defined.



(** The bound 129 is sharp: a 128x128 input leaves the sixth block with a
    2x2 map, which the 3x3 VALID kernel of fc1 refuses. *)
Lemma get_rejects_small_images :
  exists msg st',
    get 10 (Placeholder float32 [None; Some 128; Some 128; Some 3] "images_")
        example_keep_prob example_is_training false initial_state
    = Raise (ValueError msg) st'.
Proof. do 2 eexists. vm_compute. reflexivity. Qed.

(** A placeholder of unknown height and width gives a map of unknown size. *)
Lemma get_accepts_unknown_sizes :
  option_map get_shape
    (returned (get 10 (Placeholder float32 [None; None; None; Some 3] "images_")
                   example_keep_prob example_is_training false initial_state))
  = Some (Some [None; None; None; Some 10]).
Proof. vm_compute. reflexivity. Qed.



(** C9: [export_model] changes nothing when its work is already done or when
    the restore fails.  If [model_filename] exists, it returns [None] and the
    only effect is the skip message on standard output: the default graph,
    the files and the framework calls are untouched.  If the file does not
    exist and [saver.restore] raises [ValueError], it prints the error on
    standard error and returns -1; the calls made are the creation of the
    saver, the session and the restore attempt, so the graph is neither
    written nor frozen and the files are unchanged. *)
Theorem export_model_skips_or_aborts :
  (forall restore_outcome write_graph_outcome freeze_graph_outcome
          num_classes session_dir input_checkpoint model_filename st,
      existsb (String.eqb model_filename) (files st) = true ->
      export_model restore_outcome write_graph_outcome freeze_graph_outcome
                   num_classes session_dir input_checkpoint model_filename st
      = Ok PyNone
           (State (default_graph st)
                  (stdout st ++ [OutText (String.append model_filename
                                            " already exists. Skipping export_model")])
                  (stderr st) (files st) (calls st)))
  /\
  (forall restore_outcome write_graph_outcome freeze_graph_outcome
          num_classes session_dir input_checkpoint model_filename st msg,
      existsb (String.eqb model_filename) (files st) = false ->
      restore_outcome (String.append session_dir (String.append "/" input_checkpoint))
      = Some (ValueError msg) ->
      exists st' saved_variables,
        export_model restore_outcome write_graph_outcome freeze_graph_outcome
                     num_classes session_dir input_checkpoint model_filename st
        = Ok (PyInt (-1)) st'
        /\ files st' = files st
        /\ default_graph st' = default_graph st
        /\ stderr st' = stderr st ++ ["[E] Unable to restore from checkpoint"]
        /\ calls st'
           = calls st
             ++ [SaverCreate saved_variables; SessionOpen true;
                 SaverRestore (String.append session_dir
                                             (String.append "/" input_checkpoint));
                 SessionClose]
        /\ existsb is_write_or_freeze (skipn (length (calls st)) (calls st')) = false).
Proof.
  split.
  - intros. now apply export_model_skips.
  - intros ro wo fo nc dir ckpt file st msg H R.
    destruct (export_model_restore_fails ro wo fo nc dir ckpt file st msg H R)
      as (st' & g & tensors & sm & E & _ & _ & Eg & Ef & Ee & Ec).
    exists st', (g_variables g).
    split; [exact E|]. split; [exact Ef|]. split; [exact Eg|]. split; [exact Ee|].
    split; [exact Ec|].
    rewrite Ec, skipn_app, skipn_all, Nat.sub_diag. reflexivity.
Qed.

Lemma export_model_skips_or_aborts_witness :
  (existsb (String.eqb "model.pb") (files (State empty_graph [] [] ["model.pb"] [])) = true
   /\ existsb (String.eqb "model.pb") (files initial_state) = false
   /\ failing_restore "/session/model-0"
      = Some (ValueError "Restore called with invalid save path"))
  /\ export_model working_restore working_write_graph working_freeze_graph
                  10 "/session" "model-0" "model.pb"
                  (State empty_graph [] [] ["model.pb"] [])
     = Ok PyNone
          (State empty_graph [OutText "model.pb already exists. Skipping export_model"]
                 [] ["model.pb"] [])
  /\ exists st',
      export_model failing_restore working_write_graph working_freeze_graph
                   10 "/session" "model-0" "model.pb" initial_state
      = Ok (PyInt (-1)) st'
      /\ files st' = [].
Proof.
  split; [repeat split; reflexivity|].
  split.
  - exact (proj1 export_model_skips_or_aborts working_restore working_write_graph
                 working_freeze_graph 10 "/session" "model-0"
                 "model.pb" (State empty_graph [] [] ["model.pb"] []) eq_refl).
  - destruct (proj2 export_model_skips_or_aborts failing_restore working_write_graph
                    working_freeze_graph 10 "/session" "model-0"
                    "model.pb" initial_state _ eq_refl eq_refl)
      as (st' & vars & E & F & _).
    exists st'. split; assumption.
Defined.



(** * Further properties of the code *)

(** ** How failures leave the graph *)

Lemma bind_raises {A B} (m : M A) (f : A -> M B) s e s1 :
  m s = Raise e s1 -> bind m f s = Raise e s1.
Proof. unfold bind. now intros ->. Qed.


Lemma create_op_raises t : get_shape t = None ->
  create_op t = raise (ValueError "incompatible shapes").
Proof. unfold create_op; now intros ->. Qed.

(** [utils.kernels] on a shape of four known entries and a new name. *)
Lemma kernels_run kh kw kd kn name init sc phs vs cols sums out err fs cs :
  existsb (String.eqb (scope_name sc name)) (map v_name vs) = false ->
  initializer_divides_by_zero init [kh; kw; kd; kn] = false ->
  (utils.dim_in (Some kd) [1; 3; 4] = true -> kd <= kn /\ kn < 2 ^ 53) ->
  let w := Var (scope_name sc name) [kh; kw; kd; kn] init true in
  utils.kernels [Some kh; Some kw; Some kd; Some kn] name init
                (State (Graph sc phs vs cols sums) out err fs cs)
  = Ok w (State (Graph sc phs (vs ++ [w]) cols
                       (sums ++ [HistogramSummary (var_tensor_name w) w]
                             ++ (if utils.dim_in (Some kd) [1; 3; 4]
                                 then [ImageSummary name
                                         (Reshape (VarRead w) [kn; kh; kw; kd]) (kn / kd)]
                                 else [])))
                out err fs cs).
Proof.
  intros F XV Hd w.
  unfold utils.kernels, utils.weight, utils.log_histogram, tf_get_variable. plumb.
  rewrite F. cbn [known option_map]. rewrite XV. plumb. fold w.
  destruct (utils.dim_in (Some kd) [1; 3; 4]) eqn:E.
  - destruct (Hd eq_refl) as [Hle Hn].
    unfold py_int_truediv.
    rewrite (proj2 (N.eqb_neq kd 0) (dim_in_134_nonzero _ E)).
    rewrite (float_int_div_small _ _ Hn (dim_in_134_small _ E)).
    unfold tf_reshape. cbn [known option_map]. plumb.
    rewrite (create_op_ok _ (map Some [kn; kh; kw; kd])).
    2:{ cbn -[num_elements]. now rewrite num_elements_rotate, N.eqb_refl. }
    unfold tf_image_summary.
    assert (M1 : (kn / kd <? 1) = false).
    { apply N.ltb_ge. apply N.div_le_lower_bound;
        [exact (dim_in_134_nonzero _ E)|rewrite N.mul_1_r; exact Hle]. }
    rewrite M1. plumb. now rewrite <- app_assoc.
  - plumb. reflexivity.
Qed.

(** ** utils.kernels *)

(** [utils.kernels], called as [conv_layer] calls it with a shape of four
    known entries and a name that is new in the scope, creates one trainable
    variable of that shape and records its histogram;
    it records the kernels as images exactly when the depth is 1, 3 or 4,
    [int(num_kernels / depth)] of them, and needs at least one. *)
Theorem kernels_creates_variable_and_summaries
        kh kw kd kn init st :
  existsb (String.eqb (scope_name (g_scope (default_graph st)) "kernels"))
          (map v_name (g_variables (default_graph st))) = false ->
  initializer_divides_by_zero init [kh; kw; kd; kn] = false ->
  kh < 2 ^ 31 -> kw < 2 ^ 31 -> kd < 2 ^ 31 -> kn < 2 ^ 31 ->
  (kd = 1 \/ kd = 3 \/ kd = 4 -> kd <= kn) ->
  exists w st' tag,
    utils.kernels [Some kh; Some kw; Some kd; Some kn] "kernels" init st = Ok w st'
    /\ w = Var (scope_name (g_scope (default_graph st)) "kernels") [kh; kw; kd; kn] init true
    /\ g_variables (default_graph st') = g_variables (default_graph st) ++ [w]
    /\ g_summaries (default_graph st')
       = g_summaries (default_graph st)
         ++ [HistogramSummary tag w]
         ++ (if (kd =? 1) || (kd =? 3) || (kd =? 4)
             then [ImageSummary "kernels" (Reshape (VarRead w) [kn; kh; kw; kd]) (kn / kd)]
             else [])
    /\ ((kd =? 1) || (kd =? 3) || (kd =? 4) = true -> 1 <= kn / kd).
Proof.
  intros F XV _ _ _ Hn Hd.
  destruct st as [[sc phs vs cols sums] out err fs cs].
  cbn [default_graph g_scope g_variables g_summaries] in *.
  assert (Hd' : utils.dim_in (Some kd) [1; 3; 4] = true -> kd <= kn /\ kn < 2 ^ 53).
  { intros Hin. split.
    - apply Hd. unfold utils.dim_in in Hin. simpl in Hin.
      repeat (apply orb_prop in Hin; destruct Hin as [Hin|Hin]);
        try (apply N.eqb_eq in Hin; subst kd; tauto); discriminate.
    - apply (N.lt_trans _ _ _ Hn). reflexivity. }
  pose proof (kernels_run kh kw kd kn "kernels" init sc phs vs cols sums out err fs cs
                          F XV Hd') as E.
  cbv zeta in E.
  assert (Ein : utils.dim_in (Some kd) [1; 3; 4] = (kd =? 1) || (kd =? 3) || (kd =? 4)).
  { unfold utils.dim_in. cbn [existsb]. now rewrite orb_false_r, orb_assoc. }
  do 3 eexists. split; [exact E|].
  cbn [default_graph g_scope g_variables g_summaries].
  split; [reflexivity|]. split; [reflexivity|]. split; [now rewrite Ein|].
  intros Hin. rewrite <- Ein in Hin.
  apply N.div_le_lower_bound; [exact (dim_in_134_nonzero _ Hin)|].
  rewrite N.mul_1_r. exact (proj1 (Hd' Hin)).
Qed.

Lemma kernels_creates_variable_and_summaries_witness :
  (existsb (String.eqb (scope_name (g_scope (default_graph initial_state)) "kernels"))
           (map v_name (g_variables (default_graph initial_state))) = false
   /\ initializer_divides_by_zero xavier_initializer_conv2d [3; 3; 3; 128] = false
   /\ 3 < 2 ^ 31 /\ 128 < 2 ^ 31
   /\ (3 = 1 \/ 3 = 3 \/ 3 = 4 -> 3 <= 128))
  /\ exists w st' tag,
      utils.kernels [Some 3; Some 3; Some 3; Some 128] "kernels"
                    xavier_initializer_conv2d initial_state = Ok w st'
      /\ g_summaries (default_graph st')
         = [HistogramSummary tag w;
            ImageSummary "kernels" (Reshape (VarRead w) [128; 3; 3; 3]) 42].
Proof.
  assert (H1 : existsb (String.eqb (scope_name (g_scope (default_graph initial_state))
                                               "kernels"))
                       (map v_name (g_variables (default_graph initial_state))) = false)
    by reflexivity.
  assert (H2 : initializer_divides_by_zero xavier_initializer_conv2d [3; 3; 3; 128] = false)
    by reflexivity.
  assert (H3 : 128 < 2 ^ 31) by reflexivity.
  assert (H4 : 3 = 1 \/ 3 = 3 \/ 3 = 4 -> 3 <= 128) by (intros _; lia).
  assert (H5 : 3 < 2 ^ 31) by reflexivity.
  split; [repeat split; assumption|].
  destruct (kernels_creates_variable_and_summaries 3 3 3 128
              xavier_initializer_conv2d initial_state H1 H2 H5 H5 H5 H3 H4)
    as (w & st' & tag & E & _ & _ & S & _).
  exists w, st', tag. split; [exact E|exact S].
Defined.

(** With a depth of 1, 3 or 4 and fewer kernels than channels the image
    summary is asked for zero images and refused: [utils.kernels] raises
    [ValueError], and the variable it has created by then stays in the
    graph. *)
Theorem kernels_fewer_kernels_than_channels kh kw kd kn init st :
  existsb (String.eqb (scope_name (g_scope (default_graph st)) "kernels"))
          (map v_name (g_variables (default_graph st))) = false ->
  initializer_divides_by_zero init [kh; kw; kd; kn] = false ->
  kh < 2 ^ 31 -> kw < 2 ^ 31 ->
  kd = 1 \/ kd = 3 \/ kd = 4 ->
  kn < kd ->
  exists msg st',
    utils.kernels [Some kh; Some kw; Some kd; Some kn] "kernels" init st
    = Raise (ValueError msg) st'
    /\ g_variables (default_graph st')
       = g_variables (default_graph st)
         ++ [Var (scope_name (g_scope (default_graph st)) "kernels") [kh; kw; kd; kn] init true].
Proof.
  intros F XV _ _ Hd Hlt.
  destruct st as [[sc phs vs cols sums] out err fs cs].
  cbn [default_graph g_scope g_variables] in *.
  assert (E : utils.dim_in (Some kd) [1; 3; 4] = true)
    by (destruct Hd as [->|[->| ->]]; reflexivity).
  assert (Hn : kn < 2 ^ 53)
    by (apply (N.lt_trans _ _ _ Hlt), (dim_in_134_small _ E)).
  do 2 eexists.
  unfold utils.kernels, utils.weight, utils.log_histogram, tf_get_variable. plumb.
  rewrite F. cbn [known option_map]. rewrite XV. plumb. rewrite E.
  unfold py_int_truediv.
  rewrite (proj2 (N.eqb_neq kd 0) (dim_in_134_nonzero _ E)).
  rewrite (float_int_div_small _ _ Hn (dim_in_134_small _ E)).
  unfold tf_reshape. cbn [known option_map]. plumb.
  rewrite (create_op_ok _ (map Some [kn; kh; kw; kd])).
  2:{ cbn -[num_elements]. now rewrite num_elements_rotate, N.eqb_refl. }
  unfold tf_image_summary.
  rewrite (N.div_small kn kd Hlt). cbn [N.ltb N.compare]. plumb.
  split; reflexivity.
Qed.

Lemma kernels_fewer_kernels_than_channels_witness :
  (existsb (String.eqb (scope_name (g_scope (default_graph initial_state)) "kernels"))
           (map v_name (g_variables (default_graph initial_state))) = false
   /\ initializer_divides_by_zero xavier_initializer_conv2d [3; 3; 3; 2] = false
   /\ 3 < 2 ^ 31
   /\ (3 = 1 \/ 3 = 3 \/ 3 = 4) /\ 2 < 3)
  /\ exists msg st',
      utils.kernels [Some 3; Some 3; Some 3; Some 2] "kernels"
                    xavier_initializer_conv2d initial_state
      = Raise (ValueError msg) st'
      /\ length (g_variables (default_graph st')) = 1%nat.
Proof.
  assert (H1 : existsb (String.eqb (scope_name (g_scope (default_graph initial_state))
                                               "kernels"))
                       (map v_name (g_variables (default_graph initial_state))) = false)
    by reflexivity.
  assert (H2 : initializer_divides_by_zero xavier_initializer_conv2d [3; 3; 3; 2] = false)
    by reflexivity.
  assert (H3 : 3 = 1 \/ 3 = 3 \/ 3 = 4) by (right; left; reflexivity).
  assert (H4 : 2 < 3) by lia.
  assert (H5 : 3 < 2 ^ 31) by reflexivity.
  split; [repeat split; assumption|].
  destruct (kernels_fewer_kernels_than_channels 3 3 3 2
              xavier_initializer_conv2d initial_state H1 H2 H5 H5 H3 H4)
    as (msg & st' & E & V).
  exists msg, st'. split; [exact E|]. rewrite V. reflexivity.
Defined.
(** ** conv_layer *)

(** A kernel shape of fewer than four entries: [kernel_shape[3]] raises
    [IndexError] before anything is created. *)
Theorem conv_layer_short_kernel_shape x kernel_shape p strides st :
  (length kernel_shape < 4)%nat ->
  conv_layer x kernel_shape p strides st
  = Raise (IndexError "list index out of range") st.
Proof.
  intros H. unfold conv_layer, py_index.
  assert (E : nth_error kernel_shape 3 = None) by (apply nth_error_None; lia).
  rewrite E. reflexivity.
Qed.

Lemma conv_layer_short_kernel_shape_witness :
  (length [Some 3; Some 3; Some 3] < 4)%nat
  /\ conv_layer example_images [Some 3; Some 3; Some 3] VALID [1; 1; 1; 1] initial_state
     = Raise (IndexError "list index out of range") initial_state.
Proof.
  assert (H : (length [Some 3; Some 3; Some 3] < 4)%nat) by (cbn; lia).
  split; [exact H|].
  exact (conv_layer_short_kernel_shape example_images [Some 3; Some 3; Some 3] VALID
           [1; 1; 1; 1] initial_state H).
Defined.

(** [conv_layer] failing at its convolution, its two variables created. *)
Lemma conv_layer_conv_raises x kh kw kd kn p strides sc phs vs cols sums out err fs cs :
  fresh_names (map v_name vs) [scope_name sc "kernels"; scope_name sc "bias"] = true ->
  initializer_divides_by_zero xavier_initializer_conv2d [kh; kw; kd; kn] = false ->
  (utils.dim_in (Some kd) [1; 3; 4] = true -> kd <= kn /\ kn < 2 ^ 53) ->
  get_shape (Conv2d x (VarRead (conv_layer_kernels sc [kh; kw; kd; kn])) strides p)
  = None ->
  conv_layer x [Some kh; Some kw; Some kd; Some kn] p strides
             (State (Graph sc phs vs cols sums) out err fs cs)
  = Raise (ValueError "incompatible shapes")
          (State (Graph sc phs
                        (vs ++ [conv_layer_kernels sc [kh; kw; kd; kn];
                                conv_layer_bias sc kn])
                        cols (sums ++ conv_layer_summaries sc kh kw kd kn))
                 out err fs cs).
Proof.
  intros F XV Hd SH.
  apply fresh_names_cons in F. destruct F as [F1 F].
  apply fresh_names_cons in F. destruct F as [F2 _].
  unfold conv_layer. cbn [py_index nth_error].
  eapply bind_runs; [reflexivity|]. cbv beta.
  eapply bind_runs; [apply (kernels_run kh kw kd kn "kernels" xavier_initializer_conv2d);
                     assumption|].
  cbv beta zeta.
  fold (conv_layer_kernels sc [kh; kw; kd; kn]).
  eapply bind_runs.
  { unfold utils.bias, utils.log_histogram.
    eapply bind_runs; [apply tf_get_variable_run; [|reflexivity]|].
    - rewrite map_app. cbn [map v_name conv_layer_kernels]. exact F2.
    - cbv beta. plumb. reflexivity. }
  cbv beta. fold (conv_layer_bias sc kn).
  apply bind_raises. unfold tf_nn_conv2d. rewrite (create_op_raises _ SH).
  unfold raise, conv_layer_summaries, var_tensor_name, conv_layer_kernels, conv_layer_bias.
  cbn [v_name]. now rewrite <- !app_assoc.
Qed.

(** A float input whose depth is not the depth of the kernels: the
    convolution is refused with [ValueError] after the kernels and the bias
    have been created, and both stay in the graph. *)
Theorem conv_layer_depth_mismatch x kh kw kd kn p sr sc st b h w d :
  get_shape x = Some [b; h; w; Some d] ->
  d <> kd ->
  fresh_names (map v_name (g_variables (default_graph st)))
              [scope_name (g_scope (default_graph st)) "kernels";
               scope_name (g_scope (default_graph st)) "bias"] = true ->
  1 <= kh -> kh < 2 ^ 31 -> 1 <= kw -> kw < 2 ^ 31 -> 1 <= kd -> kd < 2 ^ 31 ->
  1 <= kn -> kn < 2 ^ 31 ->
  (kd = 1 \/ kd = 3 \/ kd = 4 -> kd <= kn) ->
  tensor_dtype x = float32 -> 1 <= sr -> 1 <= sc ->
  exists msg st' kernels bias,
    conv_layer x [Some kh; Some kw; Some kd; Some kn] p [1; sr; sc; 1] st
    = Raise (ValueError msg) st'
    /\ g_variables (default_graph st') = g_variables (default_graph st) ++ [kernels; bias]
    /\ v_shape kernels = [kh; kw; kd; kn] /\ v_shape bias = [kn].
Proof.
  intros SX Hne F Hh1 _ Hw1 _ Hd1 _ Hn1 Hn Hd _ _ _.
  destruct st as [[scp phs vs cols sums] out err fs cs].
  cbn [default_graph g_scope g_variables] in *.
  assert (SH : get_shape (Conv2d x (VarRead (conv_layer_kernels scp [kh; kw; kd; kn]))
                                 [1; sr; sc; 1] p) = None).
  { rewrite get_shape_Conv2d, SX. cbn [get_shape conv_layer_kernels v_shape map].
    unfold conv2d_shape. cbn [dim_compatible].
    now rewrite (proj2 (N.eqb_neq d kd) Hne). }
  assert (XV : initializer_divides_by_zero xavier_initializer_conv2d [kh; kw; kd; kn]
               = false) by (apply xavier_conv2d_defined; lia).
  assert (Hd' : utils.dim_in (Some kd) [1; 3; 4] = true -> kd <= kn /\ kn < 2 ^ 53).
  { intros Hin. split.
    - apply Hd. unfold utils.dim_in in Hin. simpl in Hin.
      repeat (apply orb_prop in Hin; destruct Hin as [Hin|Hin]);
        try (apply N.eqb_eq in Hin; subst kd; tauto); discriminate.
    - apply (N.lt_trans _ _ _ Hn). reflexivity. }
  do 4 eexists. split.
  - apply (conv_layer_conv_raises x kh kw kd kn p [1; sr; sc; 1] scp phs vs cols sums
                                  out err fs cs F XV Hd' SH).
  - cbn [default_graph g_variables]. repeat split.
Qed.

Lemma conv_layer_depth_mismatch_witness :
  (get_shape example_images = Some [None; Some 192; Some 192; Some 3]
   /\ 3 <> 8
   /\ fresh_names (map v_name (g_variables (default_graph initial_state)))
                  [scope_name (g_scope (default_graph initial_state)) "kernels";
                   scope_name (g_scope (default_graph initial_state)) "bias"] = true
   /\ 1 <= 3 /\ 3 < 2 ^ 31 /\ 1 <= 8 /\ 8 < 2 ^ 31 /\ 1 <= 16 /\ 16 < 2 ^ 31
   /\ (8 = 1 \/ 8 = 3 \/ 8 = 4 -> 8 <= 16)
   /\ tensor_dtype example_images = float32 /\ 1 <= 1)
  /\ exists msg st',
      conv_layer example_images [Some 3; Some 3; Some 8; Some 16] VALID [1; 1; 1; 1]
                 initial_state
      = Raise (ValueError msg) st'
      /\ length (g_variables (default_graph st')) = 2%nat.
Proof.
  assert (H1 : get_shape example_images = Some [None; Some 192; Some 192; Some 3])
    by reflexivity.
  assert (H2 : 3 <> 8) by discriminate.
  assert (H3 : fresh_names (map v_name (g_variables (default_graph initial_state)))
                 [scope_name (g_scope (default_graph initial_state)) "kernels";
                  scope_name (g_scope (default_graph initial_state)) "bias"] = true)
    by reflexivity.
  assert (A1 : 1 <= 3) by lia. assert (A2 : 3 < 2 ^ 31) by reflexivity.
  assert (A3 : 1 <= 8) by lia. assert (A4 : 8 < 2 ^ 31) by reflexivity.
  assert (A5 : 1 <= 16) by lia. assert (A6 : 16 < 2 ^ 31) by reflexivity.
  assert (A7 : 8 = 1 \/ 8 = 3 \/ 8 = 4 -> 8 <= 16) by (intros _; lia).
  assert (A8 : tensor_dtype example_images = float32) by reflexivity.
  assert (A9 : 1 <= 1) by lia.
  split; [repeat split; assumption|].
  destruct (conv_layer_depth_mismatch example_images 3 3 8 16 VALID 1 1 initial_state
              None (Some 192) (Some 192) 3 H1 H2 H3 A1 A2 A1 A2 A3 A4 A5 A6 A7 A8 A9 A9)
    as (msg & st' & kernels & bias & E & V & _).
  exists msg, st'. split; [exact E|]. rewrite V. reflexivity.
Defined.

(** ** eq_conv_layer at the edges *)

Lemma xavier_conv2d_empty_kernel d n :
  initializer_divides_by_zero xavier_initializer_conv2d [0; 0; d; n] = true.
Proof. destruct d, n; reflexivity. Qed.

(** A kernel side of 0: the padding is [int(-0.5)] = 0, the input is padded
    by nothing and printed, and the creation of the empty kernels fails in
    the xavier initializer with [ZeroDivisionError]; no variable is
    created. *)
Theorem eq_conv_layer_kernel_side_0 x n strides it st b h w d :
  get_shape x = Some [b; h; w; Some d] ->
  existsb (String.eqb (scope_name (g_scope (default_graph st) ++ ["eq_conv_layer"])
                                  "kernels"))
          (map v_name (g_variables (default_graph st))) = false ->
  exists st' padded,
    eq_conv_layer x 0 n strides it st = Raise (OtherError "ZeroDivisionError") st'
    /\ g_variables (default_graph st') = g_variables (default_graph st)
    /\ g_scope (default_graph st') = g_scope (default_graph st)
    /\ stdout st' = stdout st ++ [OutTensor padded]
    /\ get_shape padded = Some [b; h; w; Some d].
Proof.
  intros SX F.
  destruct st as [[sc phs vs cols sums] out err fs cs].
  cbn [default_graph g_scope g_variables stdout] in *.
  assert (SP : get_shape (Pad x [(0, 0); (0, 0); (0, 0); (0, 0)]%Z
                              (scope_name (sc ++ ["eq_conv_layer"]) "input_padded"))
               = Some [b; h; w; Some d]).
  { rewrite get_shape_Pad, SX. cbn.
    destruct b, h, w; cbn; now rewrite ?N.add_0_r. }
  do 2 eexists. split.
  - unfold eq_conv_layer, tf_pad, py_pad_amount. plumb. rewrite SX. plumb.
    cbn [Z.of_N Z.sub Z.ltb Z.compare Z.add Z.opp Z.pos_sub]. plumb.
    rewrite (create_op_ok _ _ SP). plumb.
    unfold conv_layer. plumb.
    unfold utils.kernels, utils.weight, tf_get_variable. plumb.
    rewrite F. cbn [known option_map]. rewrite xavier_conv2d_empty_kernel.
    reflexivity.
  - cbn [default_graph g_scope g_variables stdout].
    split; [reflexivity|]. split; [reflexivity|]. split; [reflexivity|]. exact SP.
Qed.

Lemma eq_conv_layer_kernel_side_0_witness :
  (get_shape example_images = Some [None; Some 192; Some 192; Some 3]
   /\ existsb (String.eqb (scope_name (g_scope (default_graph initial_state)
                                       ++ ["eq_conv_layer"]) "kernels"))
              (map v_name (g_variables (default_graph initial_state))) = false)
  /\ exists st',
      eq_conv_layer example_images 0 128 [1; 2; 2; 1] (ConstBool false) initial_state
      = Raise (OtherError "ZeroDivisionError") st'
      /\ g_variables (default_graph st') = [].
Proof.
  assert (H1 : get_shape example_images = Some [None; Some 192; Some 192; Some 3])
    by reflexivity.
  assert (H2 : existsb (String.eqb (scope_name (g_scope (default_graph initial_state)
                                                ++ ["eq_conv_layer"]) "kernels"))
                       (map v_name (g_variables (default_graph initial_state))) = false)
    by reflexivity.
  split; [split; assumption|].
  destruct (eq_conv_layer_kernel_side_0 example_images 128 [1; 2; 2; 1] (ConstBool false)
              initial_state None (Some 192) (Some 192) 3 H1 H2)
    as (st' & padded & E & V & _).
  exists st'. split; [exact E|exact V].
Defined.

(** An input of unknown depth: the kernel shape has an unknown entry and
    [tf.get_variable] refuses it with [ValueError]; no variable is
    created. *)
Theorem eq_conv_layer_unknown_depth x k n strides it st b h w :
  get_shape x = Some [b; h; w; None] ->
  k < 2 ^ 31 ->
  existsb (String.eqb (scope_name (g_scope (default_graph st) ++ ["eq_conv_layer"])
                                  "kernels"))
          (map v_name (g_variables (default_graph st))) = false ->
  exists msg st',
    eq_conv_layer x k n strides it st = Raise (ValueError msg) st'
    /\ g_variables (default_graph st') = g_variables (default_graph st)
    /\ g_scope (default_graph st') = g_scope (default_graph st).
Proof.
  intros SX Hk F.
  destruct st as [[sc phs vs cols sums] out err fs cs].
  cbn [default_graph g_scope g_variables] in *.
  assert (Hk53 : k <= 2 ^ 53)
    by (apply N.lt_le_incl, (N.lt_trans _ _ _ Hk); reflexivity).
  assert (SP : exists shp,
             get_shape (Pad x [(0, 0); (pad_amount k, pad_amount k);
                               (pad_amount k, pad_amount k); (0, 0)]%Z
                            (scope_name (sc ++ ["eq_conv_layer"]) "input_padded"))
             = Some shp).
  { rewrite get_shape_Pad, SX. unfold pad_shape, pad_dim. cbn [fst snd].
    rewrite pad_amount_nonneg. cbn. eexists. reflexivity. }
  destruct SP as [shp SP].
  do 2 eexists. split.
  - unfold eq_conv_layer, tf_pad. plumb. rewrite SX. plumb.
    rewrite (py_pad_amount_run k _ Hk53). plumb.
    rewrite (create_op_ok _ _ SP). plumb.
    unfold conv_layer. plumb.
    unfold utils.kernels, utils.weight, tf_get_variable. plumb.
    rewrite F. cbn [known option_map]. reflexivity.
  - cbn [default_graph g_scope g_variables]. split; reflexivity.
Qed.

Lemma eq_conv_layer_unknown_depth_witness :
  (get_shape (Placeholder float32 [None; Some 192; Some 192; None] "images_")
   = Some [None; Some 192; Some 192; None]
   /\ 3 < 2 ^ 31
   /\ existsb (String.eqb (scope_name (g_scope (default_graph initial_state)
                                       ++ ["eq_conv_layer"]) "kernels"))
              (map v_name (g_variables (default_graph initial_state))) = false)
  /\ exists msg st',
      eq_conv_layer (Placeholder float32 [None; Some 192; Some 192; None] "images_")
                    3 128 [1; 2; 2; 1] (ConstBool false) initial_state
      = Raise (ValueError msg) st'
      /\ g_variables (default_graph st') = [].
Proof.
  assert (H1 : get_shape (Placeholder float32 [None; Some 192; Some 192; None] "images_")
               = Some [None; Some 192; Some 192; None]) by reflexivity.
  assert (H2 : 3 < 2 ^ 31) by reflexivity.
  assert (H3 : existsb (String.eqb (scope_name (g_scope (default_graph initial_state)
                                                ++ ["eq_conv_layer"]) "kernels"))
                       (map v_name (g_variables (default_graph initial_state))) = false)
    by reflexivity.
  split; [repeat split; assumption|].
  destruct (eq_conv_layer_unknown_depth
              (Placeholder float32 [None; Some 192; Some 192; None] "images_")
              3 128 [1; 2; 2; 1] (ConstBool false) initial_state
              None (Some 192) (Some 192) H1 H2 H3)
    as (msg & st' & E & V & _).
  exists msg, st'. split; [exact E|exact V].
Defined.

Lemma pad_amount_even k :
  N.even k = true -> 2 <= k -> k <= 2 ^ 53 ->
  Z.to_N (pad_amount k) + Z.to_N (pad_amount k) = k - 2.
Proof.
  intros Hev H2 Hk. rewrite (pad_amount_small k Hk).
  apply N.even_spec in Hev. destruct Hev as [m ->].
  replace (Z.of_N (2 * m) - 1)%Z with (1 + (Z.of_N m - 1) * 2)%Z by lia.
  rewrite Z.quot_add by lia.
  replace (Z.quot 1 2) with 0%Z by reflexivity.
  rewrite Z.add_0_l. lia.
Qed.

(** An even kernel side does not give "same" padding: [int((k - 1) / 2)]
    pads one row and one column less than the kernel takes away, and at
    stride 1 the output is one smaller than the input in height and
    width. *)
Theorem eq_conv_layer_even_kernel x k n it st b h w d :
  get_shape x = Some [b; Some h; Some w; Some d] ->
  N.even k = true -> 2 <= k -> k < 2 ^ 31 -> 2 <= h -> 2 <= w ->
  fresh_names (map v_name (g_variables (default_graph st)))
              (map v_name (eq_conv_layer_variables (g_scope (default_graph st)) k d n))
  = true ->
  1 <= n -> n < 2 ^ 31 -> 1 <= d ->
  (d = 1 \/ d = 3 \/ d = 4 -> d <= n) ->
  tensor_dtype x = float32 -> tensor_dtype it = bool_ -> get_shape it = Some [] ->
  exists t st',
    eq_conv_layer x k n [1; 1; 1; 1] it st = Ok t st'
    /\ get_shape t = Some [b; Some (h - 1); Some (w - 1); Some n].
Proof.
  intros SX Hev Hk2 Hk Hh Hw F Hn1 Hn Hd1 Hd _ _ _.
  destruct st as [[sc phs vs cols sums] out err fs cs].
  cbn [default_graph g_variables g_scope] in F |- *.
  destruct (layer_sizes k n d) as (Hk53 & XV & Hd53); try assumption; [lia|].
  pose proof (pad_amount_even k Hev Hk2 Hk53) as E2.
  assert (one : 1 <> 0) by discriminate.
  assert (Ph : dim_le k (padded_dim k (Some h))).
  { cbn. rewrite <- N.add_assoc, E2. lia. }
  assert (Pw : dim_le k (padded_dim k (Some w))).
  { cbn. rewrite <- N.add_assoc, E2. lia. }
  pose proof (eq_conv_layer_run x k n 1 it sc phs vs cols sums out err fs cs
                                b (Some h) (Some w) d SX one Ph Pw F Hk53 XV Hd53) as E.
  pose proof (eq_conv_layer_shape sc x k n 1 it b (Some h) (Some w) d SX one Ph Pw) as ST.
  do 2 eexists. split; [exact E|]. rewrite ST.
  cbn [eq_conv_out_dim option_map]. unfold eq_conv_out.
  rewrite <- !N.add_assoc, E2, !N.div_1_r.
  replace (h + (k - 2) - k + 1) with (h - 1) by lia.
  replace (w + (k - 2) - k + 1) with (w - 1) by lia.
  reflexivity.
Qed.

Lemma eq_conv_layer_even_kernel_witness :
  (get_shape example_images = Some [None; Some 192; Some 192; Some 3]
   /\ N.even 2 = true /\ 2 <= 2 /\ 2 < 2 ^ 31 /\ 2 <= 192
   /\ fresh_names (map v_name (g_variables (default_graph initial_state)))
                  (map v_name (eq_conv_layer_variables
                                 (g_scope (default_graph initial_state)) 2 3 128)) = true
   /\ 1 <= 128 /\ 128 < 2 ^ 31 /\ 1 <= 3
   /\ (3 = 1 \/ 3 = 3 \/ 3 = 4 -> 3 <= 128)
   /\ tensor_dtype example_images = float32
   /\ tensor_dtype (ConstBool false) = bool_ /\ get_shape (ConstBool false) = Some [])
  /\ exists t st',
      eq_conv_layer example_images 2 128 [1; 1; 1; 1] (ConstBool false) initial_state
      = Ok t st'
      /\ get_shape t = Some [None; Some 191; Some 191; Some 128].
Proof.
  assert (H1 : get_shape example_images = Some [None; Some 192; Some 192; Some 3])
    by reflexivity.
  assert (H2 : N.even 2 = true) by reflexivity.
  assert (H3 : 2 <= 2) by lia.
  assert (H4 : 2 < 2 ^ 31) by reflexivity.
  assert (H5 : 2 <= 192) by lia.
  assert (H6 : fresh_names (map v_name (g_variables (default_graph initial_state)))
                 (map v_name (eq_conv_layer_variables
                                (g_scope (default_graph initial_state)) 2 3 128)) = true)
    by reflexivity.
  assert (H7 : 1 <= 128) by lia.
  assert (H8 : 128 < 2 ^ 31) by reflexivity.
  assert (H9 : 1 <= 3) by lia.
  assert (H10 : 3 = 1 \/ 3 = 3 \/ 3 = 4 -> 3 <= 128) by (intros _; lia).
  split; [repeat split; assumption|].
  destruct (eq_conv_layer_even_kernel example_images 2 128 (ConstBool false)
              initial_state None 192 192 3 H1 H2 H3 H4 H5 H5 H6 H7 H8 H9 H10
              eq_refl eq_refl eq_refl)
    as (t & st' & E & S).
  exists t, st'. split; [exact E|exact S].
Defined.
(** ** loss and train at the edges *)

(** [loss] is for logits that are 1x1 maps: a known height or width other
    than 1 makes the squeeze, and with it [loss], raise [ValueError]; the
    graph is left as it was. *)
Theorem loss_rejects_spatial_maps logits labels st b h w c n :
  get_shape logits = Some [b; h; w; c] ->
  h = Some n \/ w = Some n ->
  n <> 1 ->
  exists msg, loss logits labels st = Raise (ValueError msg) st.
Proof.
  intros SL Hn Hne.
  destruct st as [[sc phs vs cols sums] out err fs cs].
  assert (SQ : get_shape (Squeeze logits [1; 2]) = None).
  { cbn [get_shape]. rewrite SL. unfold squeeze_shape.
    cbn [length forallb N.of_nat]. cbn [squeeze_from existsb N.eqb N.add].
    cbn -[dim_compatible].
    destruct Hn as [-> | ->].
    - cbn [dim_compatible]. now rewrite (proj2 (N.eqb_neq n 1) Hne).
    - destruct (dim_compatible h (Some 1)); [|reflexivity].
      cbn [dim_compatible]. rewrite (proj2 (N.eqb_neq n 1) Hne). reflexivity. }
  eexists. unfold loss, tf_squeeze. plumb. rewrite (create_op_raises _ SQ).
  reflexivity.
Qed.

Lemma loss_rejects_spatial_maps_witness :
  (get_shape (Placeholder float32 [None; Some 2; Some 2; Some 10] "logits")
   = Some [None; Some 2; Some 2; Some 10]
   /\ (Some 2 = Some 2 \/ Some 2 = Some 2) /\ 2 <> 1)
  /\ exists msg,
      loss (Placeholder float32 [None; Some 2; Some 2; Some 10] "logits")
           (Placeholder int64 [None] "labels") initial_state
      = Raise (ValueError msg) initial_state.
Proof.
  assert (H1 : get_shape (Placeholder float32 [None; Some 2; Some 2; Some 10] "logits")
               = Some [None; Some 2; Some 2; Some 10]) by reflexivity.
  assert (H2 : Some 2 = Some 2 \/ Some 2 = Some 2) by (left; reflexivity).
  assert (H3 : 2 <> 1) by discriminate.
  split; [repeat split; assumption|].
  exact (loss_rejects_spatial_maps
           (Placeholder float32 [None; Some 2; Some 2; Some 10] "logits")
           (Placeholder int64 [None] "labels") initial_state
           None (Some 2) (Some 2) (Some 10) 2 H1 H2 H3).
Defined.

(** [train] needs something to train: when no trainable variable of the
    graph has a gradient in the loss (in particular when the graph has no
    trainable variable), [minimize] raises [ValueError] and nothing is added
    to the graph. *)
Theorem train_needs_a_variable_with_gradient loss_op global_step st :
  existsb (has_gradient loss_op)
          (filter v_trainable (g_variables (default_graph st))) = false ->
  exists msg, train loss_op global_step st = Raise (ValueError msg) st.
Proof.
  intros H.
  destruct st as [[sc phs vs cols sums] out err fs cs].
  cbn [default_graph g_variables] in H.
  unfold train, optimizer_minimize. plumb.
  destruct (filter v_trainable vs) as [|v0 tr] eqn:Etr; [eexists; reflexivity|].
  destruct (filter (has_gradient loss_op) (v0 :: tr)) as [|u0 up] eqn:Eup;
    [eexists; reflexivity|].
  exfalso.
  assert (Hin : In u0 (filter (has_gradient loss_op) (v0 :: tr)))
    by (rewrite Eup; now left).
  apply filter_In in Hin. destruct Hin as [Hin Hg].
  assert (Hex : existsb (has_gradient loss_op) (v0 :: tr) = true)
    by (apply existsb_exists; now exists u0).
  rewrite H in Hex. discriminate Hex.
Qed.

Lemma train_needs_a_variable_with_gradient_witness :
  existsb (has_gradient (ReduceMean (Placeholder float32 [None] "x") "loss"))
          (filter v_trainable (g_variables (default_graph example_trainable_state)))
  = false
  /\ exists msg,
      train (ReduceMean (Placeholder float32 [None] "x") "loss") example_global_step
            example_trainable_state
      = Raise (ValueError msg) example_trainable_state.
Proof.
  assert (H : existsb (has_gradient (ReduceMean (Placeholder float32 [None] "x") "loss"))
                (filter v_trainable (g_variables (default_graph example_trainable_state)))
              = false) by reflexivity.
  split; [exact H|].
  exact (train_needs_a_variable_with_gradient
           (ReduceMean (Placeholder float32 [None] "x") "loss") example_global_step
           example_trainable_state H).
Defined.

(** ** The size of the map [get] returns *)






(** ** define_model *)

(** In a new graph [define_model] always succeeds, in either phase: it
    creates the three placeholders is_training_, keep_prob_ and images_
    (of any batch size, [INPUT_SIDE] x [INPUT_SIDE] x [INPUT_DEPTH]) and the
    42 variables of [get], 30 of them trainable, and its logits have shape
    [batch, 1, 1, num_classes]. *)
Theorem define_model_in_new_graph num_classes train_phase out err fs cs :
  exists is_training_ keep_prob_ images_ logits st',
    define_model num_classes train_phase (State empty_graph out err fs cs)
    = Ok (is_training_, keep_prob_, images_, logits) st'
    /\ is_training_ = Placeholder bool_ [] "is_training_"
    /\ keep_prob_ = Placeholder float32 [] "keep_prob_"
    /\ images_ = Placeholder float32 [None; Some 192; Some 192; Some 3] "images_"
    /\ get_shape logits = Some [None; Some 1; Some 1; Some num_classes]
    /\ g_placeholders (default_graph st') = [is_training_; keep_prob_; images_]
    /\ length (g_variables (default_graph st')) = 42%nat
    /\ length (filter v_trainable (g_variables (default_graph st'))) = 30%nat
    /\ stderr st' = err /\ files st' = fs /\ calls st' = cs.
Proof.
  destruct (define_model_run num_classes train_phase out err fs cs)
    as (st' & E & _ & Ep & Ev & _ & Ee & Ef & Ec).
  destruct (get_tensor_shapes num_classes
              (Placeholder float32 [None; Some INPUT_SIDE; Some INPUT_SIDE; Some INPUT_DEPTH]
                           "images_")
              (Placeholder float32 [] "keep_prob_") (Placeholder bool_ [] "is_training_")
              train_phase None (Some INPUT_SIDE) (Some INPUT_SIDE) INPUT_DEPTH)
    as (_ & _ & _ & _ & ST);
    [reflexivity | cbn; unfold INPUT_SIDE; lia | cbn; unfold INPUT_SIDE; lia |].
  do 5 eexists. split; [exact E|].
  split; [reflexivity|]. split; [reflexivity|]. split; [reflexivity|].
  split; [exact ST|]. split; [exact Ep|].
  rewrite Ev. repeat split; try assumption; reflexivity.
Qed.
(** ** Inputs too small for [get] *)



(** ** export_model: errors and repetition *)

(** Only a [ValueError] of the restore is caught.  Any other exception of
    [saver.restore] leaves [export_model]: nothing is printed on standard
    error, the graph is neither written nor frozen, the session is closed,
    the files are as before and the caller's default graph is back in
    place. *)
Theorem export_model_restore_error_propagates
        restore_outcome write_graph_outcome freeze_graph_outcome
        num_classes session_dir input_checkpoint model_filename st e :
  existsb (String.eqb model_filename) (files st) = false ->
  restore_outcome (String.append session_dir (String.append "/" input_checkpoint))
  = Some e ->
  (forall msg, e <> ValueError msg) ->
  exists st' saved_variables,
    export_model restore_outcome write_graph_outcome freeze_graph_outcome
                 num_classes session_dir input_checkpoint model_filename st
    = Raise e st'
    /\ files st' = files st
    /\ default_graph st' = default_graph st
    /\ stderr st' = stderr st
    /\ calls st'
       = calls st
         ++ [SaverCreate saved_variables; SessionOpen true;
             SaverRestore (String.append session_dir
                                         (String.append "/" input_checkpoint));
             SessionClose].
Proof.
  intros H R Hne. destruct st as [g0 out err fs cs]. cbn [files] in H.
  destruct (define_model_run num_classes false out err fs cs)
    as (sm & E & _ & _ & _ & _ & Xe & Xf & Xc).
  destruct sm as [gm outm errm fsm csm]. cbn [stderr files calls] in Xe, Xf, Xc.
  subst errm fsm csm.
  exists (State g0 outm err fs
                (cs ++ [SaverCreate (g_variables gm); SessionOpen true;
                        SaverRestore (String.append session_dir
                                        (String.append "/" input_checkpoint));
                        SessionClose])), (g_variables gm).
  split; [|repeat split; reflexivity].
  unfold export_model. plumb_io. rewrite H. cbn [negb]. rewrite E.
  unfold saver_restore. plumb_io. rewrite R.
  destruct e as [msg|msg|msg]; [exfalso; exact (Hne msg eq_refl)| |];
    plumb_io; now rewrite <- !app_assoc.
Qed.

Lemma export_model_restore_error_propagates_witness :
  (existsb (String.eqb "model.pb") (files initial_state) = false
   /\ (fun _ : string => Some (OtherError "NotFoundError")) "/session/model-0"
      = Some (OtherError "NotFoundError")
   /\ (forall msg, OtherError "NotFoundError" <> ValueError msg))
  /\ exists st',
      export_model (fun _ => Some (OtherError "NotFoundError"))
                   working_write_graph working_freeze_graph
                   10 "/session" "model-0" "model.pb" initial_state
      = Raise (OtherError "NotFoundError") st'
      /\ files st' = [] /\ stderr st' = [].
Proof.
  assert (H1 : existsb (String.eqb "model.pb") (files initial_state) = false)
    by reflexivity.
  assert (H2 : (fun _ : string => Some (OtherError "NotFoundError")) "/session/model-0"
               = Some (OtherError "NotFoundError")) by reflexivity.
  assert (H3 : forall msg, OtherError "NotFoundError" <> ValueError msg)
    by (intros msg; discriminate).
  split; [repeat split; assumption|].
  destruct (export_model_restore_error_propagates
              (fun _ => Some (OtherError "NotFoundError"))
              working_write_graph working_freeze_graph
              10 "/session" "model-0" "model.pb" initial_state
              (OtherError "NotFoundError") H1 H2 H3)
    as (st' & vars & E & F & _ & S & _).
  exists st'. repeat split; assumption.
Defined.

(** The [try] covers the restore only.  When the restore succeeds and
    [tf.train.write_graph] raises, a [ValueError] included, the exception
    leaves [export_model]: -1 is not returned, nothing is printed on standard
    error, the freezing utility is never called, and the session is closed
    and the caller's default graph back in place. *)
Theorem export_model_write_graph_error_propagates
        restore_outcome write_graph_outcome freeze_graph_outcome
        num_classes session_dir input_checkpoint model_filename st e :
  existsb (String.eqb model_filename) (files st) = false ->
  restore_outcome (String.append session_dir (String.append "/" input_checkpoint))
  = None ->
  write_graph_outcome session_dir "skeleton.pbtxt" = Some e ->
  exists st' g,
    export_model restore_outcome write_graph_outcome freeze_graph_outcome
                 num_classes session_dir input_checkpoint model_filename st
    = Raise e st'
    /\ default_graph st' = default_graph st
    /\ stderr st' = stderr st
    /\ calls st'
       = calls st
         ++ [SaverCreate (g_variables g); SessionOpen true;
             SaverRestore (String.append session_dir
                                         (String.append "/" input_checkpoint));
             WriteGraph g session_dir "skeleton.pbtxt" true;
             SessionClose].
Proof.
  intros H R W. destruct st as [g0 out err fs cs]. cbn [files] in H.
  destruct (define_model_run num_classes false out err fs cs)
    as (sm & E & _ & _ & _ & _ & Xe & Xf & Xc).
  destruct sm as [gm outm errm fsm csm]. cbn [stderr files calls] in Xe, Xf, Xc.
  subst errm fsm csm.
  exists (State g0 outm err fs
                (cs ++ [SaverCreate (g_variables gm); SessionOpen true;
                        SaverRestore (String.append session_dir
                                        (String.append "/" input_checkpoint));
                        WriteGraph gm session_dir "skeleton.pbtxt" true;
                        SessionClose])), gm.
  split; [|repeat split; reflexivity].
  unfold export_model. plumb_io. rewrite H. cbn [negb]. rewrite E.
  unfold saver_restore. plumb_io. rewrite R. plumb_io. rewrite W. plumb_io.
  now rewrite <- !app_assoc.
Qed.

Lemma export_model_write_graph_error_propagates_witness :
  (existsb (String.eqb "model.pb") (files initial_state) = false
   /\ working_restore "/session/model-0" = None
   /\ (fun _ _ : string => Some (ValueError "read-only")) "/session" "skeleton.pbtxt"
      = Some (ValueError "read-only"))
  /\ exists st',
      export_model working_restore (fun _ _ => Some (ValueError "read-only"))
                   working_freeze_graph
                   10 "/session" "model-0" "model.pb" initial_state
      = Raise (ValueError "read-only") st'
      /\ stderr st' = [].
Proof.
  assert (H1 : existsb (String.eqb "model.pb") (files initial_state) = false)
    by reflexivity.
  assert (H2 : working_restore "/session/model-0" = None) by reflexivity.
  assert (H3 : (fun _ _ : string => Some (ValueError "read-only"))
                 "/session" "skeleton.pbtxt"
               = Some (ValueError "read-only")) by reflexivity.
  split; [repeat split; assumption|].
  destruct (export_model_write_graph_error_propagates
              working_restore (fun _ _ => Some (ValueError "read-only"))
              working_freeze_graph
              10 "/session" "model-0" "model.pb" initial_state
              (ValueError "read-only") H1 H2 H3)
    as (st' & g & E & _ & S & _).
  exists st'. split; assumption.
Defined.

(** Exporting is done once.  After an export that froze the model, every
    further [export_model] for the same [model_filename], whatever its other
    arguments and whatever the checkpoint has become, returns [None] with
    the skip message as its only effect: no model is defined and no framework
    call is made. *)
Theorem export_model_second_call_skips
        restore_outcome write_graph_outcome freeze_graph_outcome
        num_classes session_dir input_checkpoint model_filename st :
  existsb (String.eqb model_filename) (files st) = false ->
  restore_outcome (String.append session_dir (String.append "/" input_checkpoint))
  = None ->
  write_graph_outcome session_dir "skeleton.pbtxt" = None ->
  freeze_graph_outcome (String.append session_dir "/skeleton.pbtxt")
                       (String.append session_dir (String.append "/" input_checkpoint))
                       model_filename = Frozen ->
  exists st1,
    export_model restore_outcome write_graph_outcome freeze_graph_outcome
                 num_classes session_dir input_checkpoint model_filename st
    = Ok PyNone st1
    /\ forall restore_outcome' write_graph_outcome' freeze_graph_outcome'
              num_classes' session_dir' input_checkpoint',
        export_model restore_outcome' write_graph_outcome' freeze_graph_outcome'
                     num_classes' session_dir' input_checkpoint' model_filename st1
        = Ok PyNone
             (State (default_graph st1)
                    (stdout st1
                     ++ [OutText (String.append model_filename
                                    " already exists. Skipping export_model")])
                    (stderr st1) (files st1) (calls st1)).
Proof.
  intros H R W F.
  destruct (export_model_reaches_freeze restore_outcome write_graph_outcome
              freeze_graph_outcome num_classes session_dir input_checkpoint
              model_filename st H R W)
    as (g & tensors & sm & st1 & _ & _ & _ & _ & _ & X).
  unfold checkpoint_path in X. rewrite F in X. destruct X as [E Ef].
  exists st1. split; [exact E|].
  intros ro' wo' fo' nc' dir' ckpt'.
  apply export_model_skips. rewrite Ef. apply add_file_in.
Qed.

Lemma export_model_second_call_skips_witness :
  (existsb (String.eqb "model.pb") (files initial_state) = false
   /\ working_restore "/session/model-0" = None
   /\ working_write_graph "/session" "skeleton.pbtxt" = None
   /\ working_freeze_graph "/session/skeleton.pbtxt" "/session/model-0" "model.pb"
      = Frozen)
  /\ exists st1,
      export_model working_restore working_write_graph working_freeze_graph
                   10 "/session" "model-0" "model.pb" initial_state
      = Ok PyNone st1
      /\ returned (export_model failing_restore working_write_graph working_freeze_graph
                                20 "/other" "model-7" "model.pb" st1)
         = Some PyNone.
Proof.
  assert (H1 : existsb (String.eqb "model.pb") (files initial_state) = false)
    by reflexivity.
  assert (H2 : working_restore "/session/model-0" = None) by reflexivity.
  assert (H3 : working_write_graph "/session" "skeleton.pbtxt" = None) by reflexivity.
  assert (H4 : working_freeze_graph "/session/skeleton.pbtxt" "/session/model-0"
                                    "model.pb" = Frozen) by reflexivity.
  split; [repeat split; assumption|].
  destruct (export_model_second_call_skips
              working_restore working_write_graph working_freeze_graph
              10 "/session" "model-0" "model.pb" initial_state H1 H2 H3 H4)
    as (st1 & E & S).
  exists st1. split; [exact E|].
  rewrite (S failing_restore working_write_graph working_freeze_graph
             20 "/other" "model-7"). reflexivity.
Defined.
(** ** What variables_to_save lists after get *)




(** ** Building the network twice *)



(** ** The training graph, end to end *)

Lemma loss_run logits labels sc phs vs cols sums out err fs cs b c b' :
  get_shape logits = Some [b; Some 1; Some 1; Some c] ->
  get_shape labels = Some [b'] ->
  dim_compatible b b' = true ->
  exists mean,
    loss logits labels (State (Graph sc phs vs cols sums) out err fs cs)
    = Ok mean (State (Graph sc phs vs cols
                            (sums ++ [ScalarSummary "loss/mean_cross_entropy" mean]))
                     out err fs cs)
    /\ grad_variables mean = grad_variables logits
    /\ get_shape mean = Some [].
Proof.
  intros SL SY Hb.
  assert (SQ : get_shape (Squeeze logits [1; 2]) = Some [b; Some c]).
  { cbn [get_shape]. rewrite SL. reflexivity. }
  set (l64 := if dtype_eqb (tensor_dtype labels) int64 then labels
              else Cast labels int64).
  assert (SC : get_shape l64 = Some [b']).
  { unfold l64. destruct (dtype_eqb _ _); exact SY. }
  set (pe := SparseSoftmaxCrossEntropyWithLogits
               (Squeeze logits [1; 2]) l64
               (scope_name (sc ++ ["loss"]) "cross_entropy_per_example")).
  assert (SP : get_shape pe = Some [match b with Some _ => b | None => b' end]).
  { unfold pe. change (get_shape (SparseSoftmaxCrossEntropyWithLogits ?l ?y _))
      with (match get_shape l, get_shape y with
            | Some ls, Some ys => xent_shape ls ys
            | _, _ => None
            end).
    rewrite SQ, SC. unfold xent_shape. now rewrite Hb. }
  exists (ReduceMean pe (scope_name (sc ++ ["loss"]) "mean_cross_entropy")).
  split; [|split; reflexivity].
  unfold loss, tf_squeeze, tf_cast, tf_nn_sparse_softmax_cross_entropy_with_logits,
    tf_reduce_mean. plumb.
  rewrite (create_op_ok _ _ SQ). plumb.
  assert (EC : forall s0,
             (if dtype_eqb (tensor_dtype labels) int64 then ret labels
              else create_op (Cast labels int64)) s0 = Ok l64 s0).
  { intros s0. unfold l64. destruct (dtype_eqb _ _); [reflexivity|].
    now rewrite (create_op_ok (Cast labels int64) [b'] SY). }
  rewrite EC.
  fold pe. rewrite (create_op_ok _ _ SP). plumb.
  rewrite (create_op_ok (ReduceMean _ _) []) by reflexivity. plumb.
  reflexivity.
Qed.

Lemma fold_add_variable_graph l sc phs vs cols sums :
  fold_left (fun g v => add_variable v g) l (Graph sc phs vs cols sums)
  = Graph sc phs (vs ++ l) cols sums.
Proof.
  revert vs. induction l as [|v r IH]; intros vs; cbn [fold_left].
  - now rewrite app_nil_r.
  - unfold add_variable at 2.
    cbn [g_scope g_placeholders g_variables g_collections g_summaries].
    rewrite IH, <- app_assoc. reflexivity.
Qed.

Lemma train_run loss_op global_step sc phs vs cols sums out err fs cs u0 up :
  filter (has_gradient loss_op) (filter v_trainable vs) = u0 :: up ->
  train loss_op global_step (State (Graph sc phs vs cols sums) out err fs cs)
  = Ok (AssignAdd global_step 1
          (map (ApplyGradient (AdamOptimizer LEARNING_RATE) loss_op) (u0 :: up)))
       (State (Graph sc phs (vs ++ adam_slots (sc ++ ["train"]) (u0 :: up)) cols sums)
              out err fs cs).
Proof.
  intros Eup.
  destruct (filter v_trainable vs) as [|v0 tr] eqn:Etr; [discriminate Eup|].
  unfold train, optimizer_minimize. plumb. rewrite Etr, Eup. plumb.
  rewrite fold_add_variable_graph. reflexivity.
Qed.

Lemma get_trains_every_weight num_classes images_ keep_prob_ is_training_ loss_op :
  grad_variables keep_prob_ = [] ->
  grad_variables images_ = [] ->
  grad_variables loss_op
  = grad_variables (get_tensor num_classes INPUT_DEPTH images_ keep_prob_
                               is_training_ true) ->
  filter (has_gradient loss_op) (filter v_trainable (get_variables num_classes INPUT_DEPTH))
  = filter v_trainable (get_variables num_classes INPUT_DEPTH).
Proof.
  intros Gk Gi G. unfold has_gradient. rewrite G.
  unfold get_tensor, dropout2_tensor, fc2_tensor, dropout1_tensor, fc1_tensor,
    conv6_tensor, conv5_tensor, conv4_tensor, conv3_tensor, conv2_tensor, conv1_tensor,
    eq_conv_layer_tensor, conv_layer_tensor, eq_conv_padded.
  cbn [grad_variables option_list negb]. rewrite Gk, Gi.
  vm_compute. reflexivity.
Qed.

(** [define_model], [loss] and [train] compose into a training graph.  In a
    graph that has no trainable variable yet, the model is defined in the
    train phase, the loss accepts its 1x1 logits with any vector of labels,
    and the training operation updates every one of the 30 trainable
    variables of the network (kernels, biases, beta and gamma) before it
    increments the step counter.  Adam adds 62 variables of its own, none
    trainable, and [variables_to_save] returns after [train] the list it
    returned before: the optimizer's variables are not in it. *)
Theorem training_graph_updates_every_weight num_classes labels global_step st b' addlist :
  g_scope (default_graph st) = [] ->
  fresh_names (map v_name (g_variables (default_graph st)))
              (map v_name (get_variables num_classes INPUT_DEPTH)) = true ->
  filter v_trainable (g_variables (default_graph st)) = [] ->
  get_shape labels = Some [b'] ->
  1 <= num_classes ->
  exists is_training_ keep_prob_ images_ logits st1 loss_op st2 op st3 slots saved,
    define_model num_classes true st = Ok (is_training_, keep_prob_, images_, logits) st1
    /\ loss logits labels st1 = Ok loss_op st2
    /\ train loss_op global_step st2 = Ok op st3
    /\ op = AssignAdd global_step 1
              (map (ApplyGradient (AdamOptimizer LEARNING_RATE) loss_op)
                   (filter v_trainable (get_variables num_classes INPUT_DEPTH)))
    /\ length (filter v_trainable (get_variables num_classes INPUT_DEPTH)) = 30%nat
    /\ g_variables (default_graph st3)
       = g_variables (default_graph st) ++ get_variables num_classes INPUT_DEPTH ++ slots
    /\ length slots = 62%nat
    /\ filter v_trainable slots = []
    /\ variables_to_save addlist st1 = Ok saved st1
    /\ variables_to_save addlist st3 = Ok saved st3.
Proof.
  intros Hsc Hvs Htr SY _.
  destruct st as [[sc phs vs cols sums] out err fs cs].
  cbn [default_graph g_scope g_variables] in Hsc, Hvs, Htr |- *. subst sc.
  set (it := Placeholder bool_ [] (scope_name [] "is_training_")).
  set (kp := Placeholder float32 [] (scope_name [] "keep_prob_")).
  set (im := Placeholder float32 [None; Some INPUT_SIDE; Some INPUT_SIDE; Some INPUT_DEPTH]
                         (scope_name [] "images_")).
  assert (SX : get_shape im = Some [None; Some INPUT_SIDE; Some INPUT_SIDE; Some INPUT_DEPTH])
    by reflexivity.
  assert (H129 : dim_le 129 (Some INPUT_SIDE)) by (cbn; unfold INPUT_SIDE; lia).
  destruct (get_run num_classes im kp it true (((phs ++ [it]) ++ [kp]) ++ [im])
                    vs cols sums out err fs cs None (Some INPUT_SIDE) (Some INPUT_SIDE)
                    INPUT_DEPTH SX H129 H129 Hvs)
    as (st1 & E & Es & Ep & Ev & Ec & Ee & Ef & Eca).
  destruct (get_tensor_shapes num_classes im kp it true None (Some INPUT_SIDE)
                              (Some INPUT_SIDE) INPUT_DEPTH SX H129 H129)
    as (_ & _ & _ & _ & ST).
  change (option_map out_side (Some INPUT_SIDE)) with (Some 1) in ST.
  destruct st1 as [[sc1 phs1 vs1 cols1 sums1] out1 err1 fs1 cs1].
  cbn [default_graph g_scope g_placeholders g_variables g_collections stderr files calls]
    in Es, Ep, Ev, Ec, Ee, Ef, Eca. subst sc1 phs1 vs1 err1 fs1 cs1.
  destruct (loss_run (get_tensor num_classes INPUT_DEPTH im kp it true) labels
                     [] (((phs ++ [it]) ++ [kp]) ++ [im])
                     (vs ++ get_variables num_classes INPUT_DEPTH) cols1 sums1
                     out1 err fs cs None num_classes b' ST SY eq_refl)
    as (mean & EL & GL & _).
  assert (EU : filter (has_gradient mean)
                 (filter v_trainable (vs ++ get_variables num_classes INPUT_DEPTH))
               = filter v_trainable (get_variables num_classes INPUT_DEPTH)).
  { rewrite filter_app, Htr. cbn [app].
    apply (get_trains_every_weight num_classes im kp it mean); [reflexivity|reflexivity|].
    exact GL. }
  assert (EU' : exists u0 up,
             filter v_trainable (get_variables num_classes INPUT_DEPTH) = u0 :: up)
    by (do 2 eexists; reflexivity).
  destruct EU' as (u0 & up & EU').
  pose proof (train_run mean global_step [] (((phs ++ [it]) ++ [kp]) ++ [im])
                        (vs ++ get_variables num_classes INPUT_DEPTH) cols1
                        (sums1 ++ [ScalarSummary "loss/mean_cross_entropy" mean])
                        out1 err fs cs u0 up) as ET.
  rewrite EU, EU' in ET. specialize (ET eq_refl). rewrite <- EU' in ET.
  exists it, kp, im, (get_tensor num_classes INPUT_DEPTH im kp it true).
  eexists. exists mean. eexists.
  eexists. eexists.
  exists (adam_slots ([] ++ ["train"])
                     (filter v_trainable (get_variables num_classes INPUT_DEPTH))).
  eexists.
  split.
  { unfold define_model, tf_placeholder. plumb. fold it. fold kp. fold im.
    cbn [app]. cbn [app] in E. rewrite E. reflexivity. }
  split; [exact EL|]. split; [exact ET|]. split; [reflexivity|].
  split; [reflexivity|].
  cbn [default_graph g_variables].
  split; [now rewrite <- app_assoc|].
  split; [rewrite adam_slots_length; reflexivity|].
  split; [apply adam_slots_not_trainable|].
  split; [apply variables_to_save_run|].
  rewrite variables_to_save_run.
  cbn [default_graph g_variables g_collections].
  rewrite (filter_app _ (vs ++ get_variables num_classes INPUT_DEPTH)),
    adam_slots_not_trainable, app_nil_r.
  reflexivity.
Qed.

Lemma training_graph_updates_every_weight_witness :
  (g_scope (default_graph (State (Graph [] [] [example_global_step] [] []) [] [] [] []))
   = []
   /\ fresh_names
        (map v_name (g_variables
           (default_graph (State (Graph [] [] [example_global_step] [] []) [] [] [] []))))
        (map v_name (get_variables 10 INPUT_DEPTH)) = true
   /\ filter v_trainable
        (g_variables
           (default_graph (State (Graph [] [] [example_global_step] [] []) [] [] [] [])))
      = []
   /\ get_shape (Placeholder int64 [None] "labels_") = Some [None]
   /\ 1 <= 10)
  /\ exists tensors st1 loss_op st2 op st3,
      define_model 10 true (State (Graph [] [] [example_global_step] [] []) [] [] [] [])
      = Ok tensors st1
      /\ loss (snd tensors) (Placeholder int64 [None] "labels_") st1 = Ok loss_op st2
      /\ train loss_op example_global_step st2 = Ok op st3
      /\ length (g_variables (default_graph st3)) = 105%nat.
Proof.
  assert (H1 : g_scope (default_graph
                 (State (Graph [] [] [example_global_step] [] []) [] [] [] [])) = [])
    by reflexivity.
  assert (H2 : fresh_names
                 (map v_name (g_variables
                    (default_graph
                       (State (Graph [] [] [example_global_step] [] []) [] [] [] []))))
                 (map v_name (get_variables 10 INPUT_DEPTH)) = true) by reflexivity.
  assert (H3 : filter v_trainable
                 (g_variables
                    (default_graph
                       (State (Graph [] [] [example_global_step] [] []) [] [] [] [])))
               = []) by reflexivity.
  assert (H4 : get_shape (Placeholder int64 [None] "labels_") = Some [None])
    by reflexivity.
  assert (H5 : 1 <= 10) by lia.
  split; [repeat split; assumption|].
  destruct (training_graph_updates_every_weight 10 (Placeholder int64 [None] "labels_")
              example_global_step
              (State (Graph [] [] [example_global_step] [] []) [] [] [] [])
              None [] H1 H2 H3 H4 H5)
    as (it & kp & im & logits & st1 & loss_op & st2 & op & st3 & slots & saved
        & E1 & E2 & E3 & _ & _ & V & L & _).
  exists (it, kp, im, logits), st1, loss_op, st2, op, st3.
  split; [exact E1|]. split; [exact E2|]. split; [exact E3|].
  rewrite V, !length_app, L. reflexivity.
Defined.
